(** * tmap_defectdetector: the model component ([model/tflow.py])

    A shallow embedding of the train/test split, the colour and shape
    helpers, the label partition and the build/compile/fit/evaluate
    orchestration of [CNNModel] and [CNNModelELPV], with the properties
    the specification states about them.

    Conventions.
    - A pandas [DataFrame] is the list of its rows, in index order.
    - Floating-point scores, fractions and tolerances are rationals ([Q]).
    - A method of a Python object is a function in the monad [Py.M]: it
      takes the object's state and returns an outcome (a value or a raised
      exception) together with the state it leaves behind.  A raised
      exception keeps the mutations made before it, as in Python.
    - Calls into Keras, matplotlib and the logger are recorded, in order,
      in the [trace] field of the state. *)

From Stdlib Require Import ZArith QArith Qround Qabs String Ascii List.
From Stdlib Require Import Permutation Lia Lqa DecimalString.
From stdpp Require Import base list gmap strings.

Local Open Scope string_scope.

(** ** Python: exceptions, the state-and-exception monad, [round], [repr] *)

Module Py.

Inductive exn : Type :=
| ValueError (msg : string)
| RuntimeError (msg : string)
| TypeError (msg : string)
| IndexError (msg : string)
| FileNotFoundError (msg : string)
| NotImplementedError (msg : string)
| InternalError (msg : string)        (* tensorflow's errors_impl.InternalError *)
| ImageDimensionError (msg : string)  (* tmap_defectdetector.image.checks *)
| AttributeError (msg : string)
| RaisedFrom (e cause : exn).         (* [raise e from cause] *)

(** [str(err)]: the message of an exception. *)
Fixpoint str_exn (e : exn) : string :=
  match e with
  | ValueError m | RuntimeError m | TypeError m | IndexError m
  | FileNotFoundError m | NotImplementedError m | InternalError m
  | ImageDimensionError m | AttributeError m => m
  | RaisedFrom e' _ => str_exn e'
  end.

Inductive outcome (A : Type) : Type :=
| Ok (a : A)
| Raise (e : exn).
Arguments Ok {A} a.
Arguments Raise {A} e.

Definition M (S A : Type) : Type := S -> outcome A * S.

Definition ret {S A} (a : A) : M S A := fun s => (Ok a, s).

Definition bind {S A B} (m : M S A) (k : A -> M S B) : M S B :=
  fun s =>
    match m s with
    | (Ok a, s') => k a s'
    | (Raise e, s') => (Raise e, s')
    end.

Definition raise {S A} (e : exn) : M S A := fun s => (Raise e, s).

Definition gets {S A} (f : S -> A) : M S A := fun s => (Ok (f s), s).

Definition modify {S} (f : S -> S) : M S unit := fun s => (Ok tt, f s).

(** An outcome computed without touching the state. *)
Definition lift {S A} (o : outcome A) : M S A := fun s => (o, s).

(** [try: body  except <handles>: handler]. *)
Definition try_except {S A} (body : M S A) (handles : exn -> bool)
           (handler : exn -> M S A) : M S A :=
  fun s =>
    match body s with
    | (Ok a, s') => (Ok a, s')
    | (Raise e, s') => if handles e then handler e s' else (Raise e, s')
    end.

(** [if c: body] with no [else]. *)
Definition when {S} (c : bool) (body : M S unit) : M S unit :=
  if c then body else ret tt.

(** A function that may raise, applied to every element in order. *)
Fixpoint traverse {A B} (f : A -> outcome B) (l : list A) : outcome (list B) :=
  match l with
  | [] => Ok []
  | a :: l' =>
      match f a with
      | Raise e => Raise e
      | Ok b =>
          match traverse f l' with
          | Raise e => Raise e
          | Ok bs => Ok (b :: bs)
          end
      end
  end.

(** [l[i]] for a non-negative index. *)
Definition index {A} (l : list A) (i : nat) : outcome A :=
  match l !! i with
  | Some a => Ok a
  | None => Raise (IndexError "index out of range")
  end.

(** [round(x)] of a float: to the nearest integer, ties to even. *)
Definition round (x : Q) : Z :=
  let f := Qfloor x in
  match (x - inject_Z f) ?= (1 # 2) with
  | Lt => f
  | Gt => (f + 1)%Z
  | Eq => if Z.even f then f else (f + 1)%Z
  end%Q.

(** [repr] of a non-negative [int] and of a tuple of them:
    [()], [(30,)], [(30, 30)]. *)
Definition repr_nat (n : nat) : string :=
  NilEmpty.string_of_uint (Nat.to_uint n).

Definition join (sep : string) (l : list string) : string :=
  String.concat sep l.

Definition repr_tuple (t : list nat) : string :=
  match t with
  | [] => "()"
  | [a] => "(" ++ repr_nat a ++ ",)"
  | _ => "(" ++ join ", " (map repr_nat t) ++ ")"
  end.

(** [repr] of a [str] without characters that need escaping. *)
Definition repr_str (s : string) : string := "'" ++ s ++ "'".

(** [sub in s] on strings. *)
Fixpoint contains (sub s : string) : bool :=
  String.prefix sub s ||
  match s with
  | EmptyString => false
  | String _ s' => contains sub s'
  end.

End Py.

Import Py.

Declare Scope py_scope.
Delimit Scope py_scope with py.
Notation "x <- m ;; k" := (Py.bind m (fun x => k))
  (at level 100, m at next level, right associativity) : py_scope.
Notation "m ;; k" := (Py.bind m (fun _ => k))
  (at level 100, right associativity) : py_scope.

(** ** numpy: arrays as a shape and a flat buffer *)

Module Np.

Record ndarray : Type := { shape : list nat; flat : list Q }.

(** [np.squeeze(a)]: the axes of length one are removed. *)
Definition squeeze (a : ndarray) : ndarray :=
  {| shape := List.filter (fun d => negb (d =? 1)%nat) (shape a);
     flat := flat a |}.

Definition size_of (shp : list nat) : nat := fold_right Nat.mul 1%nat shp.

(** [a.reshape(newshape)]: fails unless the sizes agree. *)
Definition reshape (a : ndarray) (newshape : list nat) : outcome ndarray :=
  if (size_of newshape =? size_of (shape a))%nat
  then Ok {| shape := newshape; flat := flat a |}
  else Raise (ValueError "cannot reshape array").

(** [np.stack(arrays)] along a new first axis. *)
Definition stack (arrays : list ndarray) : outcome ndarray :=
  match arrays with
  | [] => Raise (ValueError "need at least one array to stack")
  | a :: rest =>
      if forallb (fun b => bool_decide (shape b = shape a)) rest
      then Ok {| shape := length arrays :: shape a;
                 flat := concat (map flat arrays) |}
      else Raise (ValueError "all input arrays must have the same shape")
  end.

(** [np.isclose(a, b, rtol, atol)] on finite values:
    [absolute(a - b) <= atol + rtol * absolute(b)]. *)
Definition rtol_default : Q := 1 # 100000.

Definition isclose (a b : Q) (rtol atol : Q) : bool :=
  Qle_bool (Qabs (a - b)) (atol + rtol * Qabs b).

(** [np.argmax(a)] of a one-dimensional array: the first index of a
    largest element. *)
Fixpoint argmax_from (best : Q) (besti i : nat) (l : list Q) : nat :=
  match l with
  | [] => besti
  | x :: l' =>
      if Qle_bool x best then argmax_from best besti (S i) l'
      else argmax_from x i (S i) l'
  end.

Definition argmax (l : list Q) : outcome nat :=
  match l with
  | [] => Raise (ValueError "attempt to get argmax of an empty sequence")
  | x :: l' => Ok (argmax_from x 0 1 l')
  end.

End Np.

(** ** pandas: the operations on frames the model uses *)

Module Pd.

Section Frame.
Context {R : Type}.

(** [random_state.choice(n, size=k, replace=False)] followed by [take]:
    [k] rows drawn one after the other from the rows not yet drawn.
    [rnd] is the generator's stream of raw draws, read from [pos]. *)
Fixpoint draw (rnd : nat -> nat) (pos k : nat) (pool : list R) : list R :=
  match k with
  | O => []
  | S k' =>
      match pool with
      | [] => []
      | r0 :: _ =>
          let i := (rnd pos mod length pool)%nat in
          nth i pool r0 :: draw rnd (S pos) k' (delete i pool)
      end
  end.

(** [df.sample(frac=frac)] (without replacement, the default). *)
Definition sample (rnd : nat -> nat) (pos : nat) (frac : Q) (df : list R)
  : outcome (list R) :=
  if negb (Qle_bool frac 1)
  then Raise (ValueError
         "Replace has to be set to `True` when upsampling the population `frac` > 1.")
  else if negb (Qle_bool 0 frac)
  then Raise (ValueError
         "A negative number of rows requested. Please provide `n` >= 0.")
  else Ok (draw rnd pos
             (Z.to_nat (round (frac * inject_Z (Z.of_nat (length df))))) df).

(** The number of raw draws [sample] consumes. *)
Definition sample_draws (frac : Q) (df : list R) : nat :=
  Z.to_nat (round (frac * inject_Z (Z.of_nat (length df)))).

(** [df.drop_duplicates(subset=[key], keep=False)]: every row whose key
    occurs more than once is dropped, all its occurrences included. *)
Definition occurrences {K} `{EqDecision K} (k : K) (keys : list K) : nat :=
  length (List.filter (fun k' => bool_decide (k' = k)) keys).

Definition drop_duplicates_keep_false {K} `{EqDecision K}
           (key : R -> K) (df : list R) : list R :=
  List.filter (fun r => (occurrences (key r) (map key df) =? 1)%nat) df.

End Frame.

End Pd.

(** ** The model component *)

Module Tflow.

Import Np.

(** *** Data model *)

Inductive ValidImgType : Type := BINARY | GRAYSCALE | RGB.

Definition ValidImgType_members : list ValidImgType := [BINARY; GRAYSCALE; RGB].

Definition ValidImgType_name (t : ValidImgType) : string :=
  match t with
  | BINARY => "BINARY"
  | GRAYSCALE => "GRAYSCALE"
  | RGB => "RGB"
  end.

Definition ValidImgType_value (t : ValidImgType) : string :=
  match t with
  | BINARY => "binary"
  | GRAYSCALE => "grayscale"
  | RGB => "rgb"
  end.

(** The values a caller can put on the right of an attribute assignment. *)
Inductive pyobj : Type :=
| ObjImgType (t : ValidImgType)
| ObjStr (s : string)
| ObjInt (z : Z)
| ObjFloat (q : Q)
| ObjBool (b : bool)
| ObjNone.

(** [isinstance(v, ValidImgType)], with the member when it holds. *)
Definition as_ValidImgType (v : pyobj) : option ValidImgType :=
  match v with
  | ObjImgType t => Some t
  | _ => None
  end.

Inductive TensorFlowLossFunction : Type :=
| SparseCategoricalCrossentropy (from_logits : bool)
| LossId (name : string).

Module CNNModelConfig.
Record t : Type := mk {
  n_epochs : Z;
  training_frac : Q;
  n_nodes_layer2 : Z;
  n_nodes_layer3 : Z;
  activation_func_id : string;
  optimizer : string;
  metrics : list string;
  loss_function : TensorFlowLossFunction;
  _img_type : ValidImgType
}.

(** The dataclass defaults; [n_epochs] depends on [GPU_AVAILABLE]. *)
Definition default (GPU_AVAILABLE : bool) : t :=
  {| n_epochs := if GPU_AVAILABLE then 1024 else 64;
     training_frac := 65 # 100;
     n_nodes_layer2 := 128;
     n_nodes_layer3 := 10;
     activation_func_id := "relu";
     optimizer := "adam";
     metrics := ["accuracy"];
     loss_function := SparseCategoricalCrossentropy true;
     _img_type := BINARY |}.

Definition with__img_type (v : ValidImgType) (self : t) : t :=
  match self with
  | mk a b c d e f g h _ => mk a b c d e f g h v
  end.

(** The [img_type] property. *)
Definition img_type (self : t) : ValidImgType := _img_type self.

(** The [img_type] setter. *)
Definition img_type_setter (img_type : pyobj) : M t unit :=
  match as_ValidImgType img_type with
  | None =>
      raise (ValueError
               ("Invalid image type for parameter 'img_type'. Valid: "
                  ++ join ", " (map ValidImgType_name ValidImgType_members)))
  | Some v => modify (with__img_type v)
  end.
End CNNModelConfig.

(** A row of the sample collection, by the columns the model reads:
    [id_col], [img_col], [type_col] and [quality_col]. *)
Record Row : Type := {
  id_col : string;
  img_col : ndarray;
  type_col : string;
  quality_col : Q
}.

Definition with_img_col (img : ndarray) (r : Row) : Row :=
  {| id_col := id_col r; img_col := img;
     type_col := type_col r; quality_col := quality_col r |}.

(** The dataset collaborator: its [data] frame and the type column of its
    [labels] frame. *)
Record ImageDataSetELPV : Type := {
  ds_data : list Row;
  ds_labels_type_col : list string
}.

Record SplitDataSet : Type := { train : list Row; test : list Row }.

Record DataByLabelsELPV (A : Type) : Type := {
  pass_ : list A;
  review : list A;
  fail : list A
}.
Arguments pass_ {A} _.
Arguments review {A} _.
Arguments fail {A} _.

Record ImageShape : Type := { rows : nat; cols : nat }.

(** [ImageShape( *args )]: a named tuple of exactly two fields. *)
Definition ImageShape_new (args : list nat) : outcome ImageShape :=
  match args with
  | [r; c] => Ok {| rows := r; cols := c |}
  | [] =>
      Raise (TypeError
        "ImageShape.__new__() missing 2 required positional arguments: 'rows' and 'cols'")
  | [_] =>
      Raise (TypeError
        "ImageShape.__new__() missing 1 required positional argument: 'cols'")
  | _ =>
      Raise (TypeError
        ("ImageShape.__new__() takes 3 positional arguments but "
           ++ repr_nat (S (length args)) ++ " were given"))
  end.

(** The network [build] constructs: Flatten, Dense, Dense. *)
Record network : Type := {
  input_shape : ImageShape;
  hidden_units : Z;
  hidden_activation : string;
  output_units : Z
}.

Definition TensorFlowPredictions : Type := list (list Q).

Record ModelEvaluation : Type := {
  loss : Q;
  accuracy : Q;
  probability_model : network;   (* the network followed by a Softmax layer *)
  predictions : TensorFlowPredictions
}.

Inductive tf_device : Type := DefaultDevice | Device (name : string).

(** What the model asks of the libraries around it, in call order. *)
Inductive event : Type :=
| Log (msg : string)
| LogF (template : string) (args : list Q)
| KerasSequential (net : network)
| KerasCompile (optimizer : string) (loss_fn : TensorFlowLossFunction)
               (metrics : list string)
| KerasFit (images : ndarray) (labels : list Q) (epochs : Z)
| KerasEvaluate (images : ndarray) (labels : list Q)
| KerasPredict (images : ndarray)
| KerasLoadWeights (path : string)
| KerasSaveWeights
| Sleep (seconds : Z)
| Plt (call : string)
| PlotImage (i : nat) (prediction : list Q) (labels : list Q)
            (images : ndarray) (class_names : list string)
| PlotValueArray (i : nat) (prediction : list Q) (labels : list Q).

(** A [CNNModelELPV] instance, the frame of its dataset ([self.data] and
    [self.dataset.data] are one object), and what it touches outside:
    the position in numpy's random stream, the files present, the device
    TensorFlow runs on and the trace of library calls. *)
Record state : Type := mk_state {
  data : list Row;
  training_frac : Q;
  training_data : list Row;
  test_data : list Row;
  model_config : CNNModelConfig.t;
  class_names : list string;
  _model : option network;
  _compiled : bool;
  _fitted : bool;
  _binary_colors : bool;
  _grayscale : bool;
  random_pos : nat;
  files : gset string;
  device : tf_device;
  trace : list event
}.

Definition with_data v s :=
  match s with mk_state _ b c d e f g h i j k l m n o => mk_state v b c d e f g h i j k l m n o end.
Definition with_training_data v s :=
  match s with mk_state a b _ d e f g h i j k l m n o => mk_state a b v d e f g h i j k l m n o end.
Definition with_test_data v s :=
  match s with mk_state a b c _ e f g h i j k l m n o => mk_state a b c v e f g h i j k l m n o end.
Definition with__model v s :=
  match s with mk_state a b c d e f _ h i j k l m n o => mk_state a b c d e f v h i j k l m n o end.
Definition with__compiled v s :=
  match s with mk_state a b c d e f g _ i j k l m n o => mk_state a b c d e f g v i j k l m n o end.
Definition with__fitted v s :=
  match s with mk_state a b c d e f g h _ j k l m n o => mk_state a b c d e f g h v j k l m n o end.
Definition with__binary_colors v s :=
  match s with mk_state a b c d e f g h i _ k l m n o => mk_state a b c d e f g h i v k l m n o end.
Definition with__grayscale v s :=
  match s with mk_state a b c d e f g h i j _ l m n o => mk_state a b c d e f g h i j v l m n o end.
Definition with_random_pos v s :=
  match s with mk_state a b c d e f g h i j k _ m n o => mk_state a b c d e f g h i j k v m n o end.
Definition with_files v s :=
  match s with mk_state a b c d e f g h i j k l _ n o => mk_state a b c d e f g h i j k l v n o end.
Definition with_device v s :=
  match s with mk_state a b c d e f g h i j k l m _ o => mk_state a b c d e f g h i j k l m v o end.
Definition with_trace v s :=
  match s with mk_state a b c d e f g h i j k l m n _ => mk_state a b c d e f g h i j k l m n v end.

(** *** The collaborators and the methods *)

Section Model.

Local Open Scope py_scope.

(** Module constants of the package. *)
Variable GPU_AVAILABLE : bool.
Variable DEFAULT_GPU : string.
Variable DEFAULT_ELPV_MODELPATH : string.

(** The image colour transforms, [Dataset.amplify_data] and
    [Dataset.filter], acting on the frame of the dataset. *)
Variable rgb_to_grayscale : ndarray -> ndarray.
Variable grayscale_to_binary : ndarray -> ndarray.
Variable dataset_amplify_data : list nat -> list Row -> outcome (list Row).
Variable dataset_filter : string -> list Row -> outcome (list Row).

(** numpy's global random stream. *)
Variable rnd : nat -> nat.

(** The TensorFlow and matplotlib runtime: whether a call fails on a
    device, and what [evaluate] and [predict] return after a history of
    calls. *)
Variable runtime_error : tf_device -> event -> option exn.
Variable keras_evaluate : list event -> Q * Q.
Variable keras_predict : list event -> TensorFlowPredictions.

Definition FLOAT_COMP_TOL : Q := 1 # 100000000.

Definition emit (e : event) : M state unit :=
  modify (fun s => with_trace (trace s ++ [e]) s).

Definition log_info (msg : string) : M state unit := emit (Log msg).

(** A call into Keras or matplotlib: it raises when the runtime fails, and
    is recorded otherwise. *)
Definition call (e : event) : M state unit :=
  fun s =>
    match runtime_error (device s) e with
    | Some err => (Raise err, s)
    | None => (Ok tt, with_trace (trace s ++ [e]) s)
    end.

(** [with tf.device(name): body]. *)
Definition with_tf_device {A} (name : string) (body : M state A) : M state A :=
  fun s =>
    let outer := device s in
    match body (with_device (Device name) s) with
    | (o, s') => (o, with_device outer s')
    end.

(** [self._model.<attr>]. *)
Definition the_model (attr : string) : M state network :=
  m <- gets _model ;;
  match m with
  | Some net => ret net
  | None => raise (AttributeError
                     ("'NoneType' object has no attribute '" ++ attr ++ "'"))
  end.

(** [col.apply(f)] assigned back to the image column. *)
Definition map_images (f : ndarray -> ndarray) (s : state) : state :=
  with_data (map (fun r => with_img_col (f (img_col r)) r) (data s)) s.

(** **** [CNNModel] *)

Definition CNNModel_init (dataset : ImageDataSetELPV)
           (model_config : CNNModelConfig.t) (names : list string)
  : M state unit :=
  modify (fun w =>
    {| data := ds_data dataset;
       training_frac := 65 # 100;
       training_data := [];
       test_data := [];
       model_config := model_config;
       class_names := names;
       _model := None;
       _compiled := false;
       _fitted := false;
       _binary_colors := false;
       _grayscale := false;
       random_pos := random_pos w;
       files := files w;
       device := device w;
       trace := trace w |}).

Definition _get_training_and_test_sets (frac : option Q) : M state SplitDataSet :=
  self_frac <- gets training_frac ;;
  let frac := match frac with None => self_frac | Some f => f end in
  emit (LogF
    "Splitting dataset into training ({frac*100:.2f}%) and test ({(1-frac)*100:.2f}%) parts."
    [frac * 100; (1 - frac) * 100]%Q) ;;
  df <- gets data ;;
  pos <- gets random_pos ;;
  img_train <- lift (Pd.sample rnd pos frac df) ;;
  modify (with_random_pos (pos + Pd.sample_draws frac df)%nat) ;;
  ret {| train := img_train;
         test := Pd.drop_duplicates_keep_false id_col (df ++ img_train) |}.

Definition init_training_and_test_sets : M state unit :=
  split <- _get_training_and_test_sets None ;;
  modify (with_training_data (train split)) ;;
  modify (with_test_data (test split)) ;;
  s <- gets id ;;
  when (negb (length (training_data s) + length (test_data s)
              =? length (data s))%nat)
       (raise (RuntimeError
          "Splitting of data into test/training sets resulted in information loss.")).

Definition CNNModel_amplify_data (mirror_axes : list nat) : M state unit :=
  df <- gets data ;;
  df' <- lift (dataset_amplify_data mirror_axes df) ;;
  modify (with_data df').

Definition filter_ (query : string) : M state unit :=
  df <- gets data ;;
  df' <- lift (dataset_filter query df) ;;
  modify (with_data df').

(** **** [CNNModelELPV] *)

Definition default_class_names : list string :=
  ["Fail"; "Review_A"; "Review_B"; "Pass"].

Definition images_to_grayscale_nonreversible : M state unit :=
  binary <- gets _binary_colors ;;
  when binary
       (raise (ValueError
          "Cannot convert to grayscale: already converted to binary colors.")) ;;
  gray <- gets _grayscale ;;
  when (negb gray)
       (log_info "Converting images to grayscale..." ;;
        df <- gets data ;;
        first <- lift (match df with
                       | r :: _ => Ok (img_col r)
                       | [] => Raise (IndexError
                                 "single positional indexer is out-of-bounds")
                       end) ;;
        channels <- lift (match last (shape first) with
                          | Some c => Ok c
                          | None => Raise (IndexError "tuple index out of range")
                          end) ;;
        when (channels =? 3)%nat
             (modify (map_images rgb_to_grayscale) ;;
              log_info "Succesfully converted image dataset to grayscale." ;;
              modify (with__grayscale true)) ;;
        log_info
          "Conversion to grayscale ignored; image doesn't have expected (rgb) input shape.").

Definition images_to_binary : M state unit :=
  gray <- gets _grayscale ;;
  when (negb gray) images_to_grayscale_nonreversible ;;
  log_info "Converting images to binary colors..." ;;
  modify (map_images grayscale_to_binary) ;;
  log_info "Succesfully converted image dataset to binary colors." ;;
  modify (with__binary_colors true) ;;
  log_info
    "Conversion to grayscale ignored; image doesn't have expected (rgb) input shape.".

Definition _unsqueeze_img (img : ndarray) : outcome ndarray :=
  reshape img (take 2 (shape img) ++ [1%nat]).

Definition unsqueeze_images : M state unit :=
  log_info "'Un'-squeezing images: NxM -> NxMx1" ;;
  df <- gets data ;;
  df' <- lift (traverse (fun r => match _unsqueeze_img (img_col r) with
                                  | Ok img => Ok (with_img_col img r)
                                  | Raise e => Raise e
                                  end) df) ;;
  modify (with_data df').


Definition squeeze_images : M state unit :=
  log_info "Squeezing images: NxMx1 -> NxM" ;;
  modify (map_images squeeze).

Definition from_dataset (dataset : ImageDataSetELPV) (tolerance : option Q)
  : M state unit :=
  let tolerance := match tolerance with None => FLOAT_COMP_TOL | Some t => t end in
  raise (NotImplementedError "").

Definition _ensure_train_imgdata : M state unit :=
  training <- gets training_data ;;
  when (bool_decide (training = [])) init_training_and_test_sets.

Definition by_label {A} (column : Row -> A) (tolerance : Q) (df : list Row)
  : DataByLabelsELPV A :=
  {| pass_ := map column
        (List.filter (fun r => isclose (quality_col r) 1 rtol_default tolerance) df);
     review := map column
        (List.filter (fun r => negb (Qle_bool (quality_col r) (1 # 100))) df);
     fail := map column
        (List.filter (fun r => isclose (quality_col r) 0 rtol_default tolerance) df) |}.

Definition get_train_data_by_label (tolerance : option Q)
  : M state (DataByLabelsELPV ndarray) :=
  let tolerance := match tolerance with None => FLOAT_COMP_TOL | Some t => t end in
  _ensure_train_imgdata ;;
  df <- gets data ;;
  ret (by_label img_col tolerance df).

Definition get_test_data_by_label (tolerance : option Q)
  : M state (DataByLabelsELPV Q) :=
  let tolerance := match tolerance with None => FLOAT_COMP_TOL | Some t => t end in
  _ensure_train_imgdata ;;
  df <- gets data ;;
  ret (by_label quality_col tolerance df).

Definition train_images : M state ndarray :=
  _ensure_train_imgdata ;;
  training <- gets training_data ;;
  lift (stack (map img_col training)).

Definition train_labels : M state (list Q) :=
  _ensure_train_imgdata ;;
  training <- gets training_data ;;
  ret (map quality_col training).

Definition test_images : M state ndarray :=
  _ensure_train_imgdata ;;
  training <- gets training_data ;;
  lift (stack (map img_col training)).

Definition test_labels : M state (list Q) :=
  _ensure_train_imgdata ;;
  training <- gets training_data ;;
  ret (map quality_col training).

(** [list(set(image.shape for image in self.data.loc[:, self.img_col]))]. *)
Definition distinct_shapes (df : list Row) : list (list nat) :=
  elements (list_to_set (map (fun r => shape (img_col r)) df) : gset (list nat)).

Definition image_shape : M state ImageShape :=
  shapes <- gets (fun s => distinct_shapes (data s)) ;;
  when (1 <? length shapes)%nat squeeze_images ;;
  shapes <- gets (fun s => distinct_shapes (data s)) ;;
  when (1 <? length shapes)%nat
       (raise (ValueError
          ("Cannot train images which occur in different shapes. "
             ++ "(Found shapes: " ++ join ", " (map repr_tuple shapes) ++ ")"))) ;;
  first <- lift (index shapes 0) ;;
  lift (ImageShape_new first).

Definition is_ImageDimensionError (e : exn) : bool :=
  match e with ImageDimensionError _ => true | _ => false end.

Definition is_InternalError (e : exn) : bool :=
  match e with InternalError _ => true | _ => false end.

Definition amplify_data (mirror_axes : list nat) : M state unit :=
  try_except (CNNModel_amplify_data mirror_axes) is_ImageDimensionError
    (fun _ =>
       unsqueeze_images ;;
       CNNModel_amplify_data mirror_axes ;;
       squeeze_images).

Definition load (model_savepath : string) : M state unit :=
  present <- gets (fun s => bool_decide (model_savepath ∈ files s)) ;;
  m <- gets _model ;;
  if present && bool_decide (m <> None) then
    call (KerasLoadWeights model_savepath)
  else if negb present then
    raise (FileNotFoundError
             ("Couldn't load CNNModelELPV model from non-existing file "
                ++ repr_str model_savepath ++ "."))
  else ret tt.

Definition build : M state unit :=
  shp <- image_shape ;;
  cfg <- gets model_config ;;
  let net := {| input_shape := shp;
                hidden_units := CNNModelConfig.n_nodes_layer2 cfg;
                hidden_activation := CNNModelConfig.activation_func_id cfg;
                output_units := CNNModelConfig.n_nodes_layer3 cfg |} in
  call (KerasSequential net) ;;
  modify (with__model (Some net)).

Definition _compile : M state unit :=
  m <- gets _model ;;
  when (bool_decide (m = None)) build ;;
  _ <- the_model "compile" ;;
  cfg <- gets model_config ;;
  call (KerasCompile (CNNModelConfig.optimizer cfg)
                     (CNNModelConfig.loss_function cfg)
                     (CNNModelConfig.metrics cfg)) ;;
  modify (with__compiled true).

Definition _fit : M state unit :=
  compiled <- gets _compiled ;;
  when (negb compiled) _compile ;;
  _ <- the_model "fit" ;;
  images <- train_images ;;
  labels <- train_labels ;;
  cfg <- gets model_config ;;
  call (KerasFit images labels (CNNModelConfig.n_epochs cfg)) ;;
  modify (with__fitted true).

Definition evaluate : M state ModelEvaluation :=
  _compile ;;
  _fit ;;
  net <- the_model "evaluate" ;;
  images <- test_images ;;
  labels <- test_labels ;;
  call (KerasEvaluate images labels) ;;
  history <- gets trace ;;
  let '(test_loss, test_acc) := keras_evaluate history in
  emit (LogF "\nTest accuracy: {test_acc:.1f}" [test_acc]) ;;
  let probability_model := net in
  images <- test_images ;;
  call (KerasPredict images) ;;
  history <- gets trace ;;
  ret {| loss := test_loss;
         accuracy := test_acc;
         probability_model := probability_model;
         predictions := keras_predict history |}.

Definition plot (predictions : TensorFlowPredictions) : M state unit :=
  p0 <- lift (index predictions 0) ;;
  emit (LogF "str(predictions[0])" p0) ;;
  best <- lift (argmax p0) ;;
  emit (LogF "str(np.argmax(predictions[0]))" [inject_Z (Z.of_nat best)]) ;;
  labels <- test_labels ;;
  l0 <- lift (index labels 0) ;;
  emit (LogF "str(self.test_labels[0])" [l0]) ;;
  let i := 0%nat in
  call (Plt "figure(figsize=(6, 3))") ;;
  call (Plt "subplot(1, 2, 1)") ;;
  p <- lift (index predictions i) ;;
  labels <- test_labels ;;
  images <- test_images ;;
  names <- gets class_names ;;
  call (PlotImage i p labels images names) ;;
  call (Plt "subplot(1, 2, 2)") ;;
  p <- lift (index predictions i) ;;
  labels <- test_labels ;;
  call (PlotValueArray i p labels) ;;
  call (Plt "show()").

(** [default_config] is the [CNNModelConfig()] instance that the
    constructor's default argument holds when the run starts. *)
Definition full_run_from_dataset (default_config : CNNModelConfig.t)
           (dataset : ImageDataSetELPV) (tolerance : option Q)
           (amplify : bool) (model_savepath : string) (force_retrain : bool)
  : M state unit :=
  let tolerance := match tolerance with None => FLOAT_COMP_TOL | Some t => t end in
  CNNModel_init dataset default_config default_class_names ;;
  when (negb (size (list_to_set (ds_labels_type_col dataset) : gset string) =? 1)%nat)
       (raise (ValueError "Training dataset for multiple types; not yet supported.")) ;;
  mode <- gets (fun s => CNNModelConfig.img_type (model_config s)) ;;
  match mode with
  | GRAYSCALE => images_to_grayscale_nonreversible
  | BINARY => images_to_binary
  | RGB => ret tt
  end ;;
  when amplify (amplify_data [1; 2; 3; 4]%nat) ;;
  present <- gets (fun s => bool_decide (model_savepath ∈ files s)) ;;
  evaluation <-
    (if present && negb force_retrain then
       load DEFAULT_ELPV_MODELPATH ;;
       evaluate
     else if GPU_AVAILABLE then
       try_except (with_tf_device DEFAULT_GPU (build ;; evaluate))
         is_InternalError
         (fun _ =>
            log_info
              "It is likely that an attempt to run the model on the GPU failed. Trying CPU training instead." ;;
            emit (Sleep 1) ;;
            with_tf_device "cpu:0" (build ;; evaluate))
     else with_tf_device "cpu:0" (build ;; evaluate)) ;;
  _ <- the_model "save_weights" ;;
  call KerasSaveWeights ;;
  try_except (plot (predictions evaluation)) (fun _ => true)
    (fun err =>
       raise (RaisedFrom
                (RuntimeError ("Model was trained, but plotting failed: "
                                 ++ repr_str (str_exn err)))
                err)).

(** **** Closed forms used to state the properties *)

(** The state [init_training_and_test_sets] leaves behind when the sample
    is drawn: the log line, the advanced random stream, the two parts. *)
Definition split_state (s : state) : state :=
  let drawn := Pd.draw rnd (random_pos s)
                 (Pd.sample_draws (training_frac s) (data s)) (data s) in
  with_test_data (Pd.drop_duplicates_keep_false id_col (data s ++ drawn))
    (with_training_data drawn
       (with_random_pos
          (random_pos s + Pd.sample_draws (training_frac s) (data s))%nat
          (with_trace
             (trace s ++
                [LogF
                   "Splitting dataset into training ({frac*100:.2f}%) and test ({(1-frac)*100:.2f}%) parts."
                   [training_frac s * 100; (1 - training_frac s) * 100]%Q]) s))).

Definition information_loss : exn :=
  RuntimeError "Splitting of data into test/training sets resulted in information loss.".

Definition already_binary : exn :=
  ValueError "Cannot convert to grayscale: already converted to binary colors.".

Definition squeeze_log : event := Log "Squeezing images: NxMx1 -> NxM".

(** The state [squeeze_images] leaves behind. *)
Definition squeezed (s : state) : state :=
  map_images squeeze (with_trace (trace s ++ [squeeze_log]) s).

End Model.

(** *** Effects of a computation on the state *)

(** Running [m] never changes the part [f] of the state. *)
Definition keeps {X A} (f : state -> X) (m : M state A) : Prop :=
  forall s, f (snd (m s)) = f s.

(** Running [m] only appends to the trace, and only events that satisfy
    [P]. *)
Definition appends {A} (P : event -> Prop) (m : M state A) : Prop :=
  forall s, exists new, trace (snd (m s)) = (trace s ++ new)%list /\ Forall P new.

(** Kinds of events. *)
Definition is_compile (e : event) : bool :=
  match e with KerasCompile _ _ _ => true | _ => false end.

Definition is_build (e : event) : bool :=
  match e with KerasSequential _ => true | _ => false end.

Definition is_fit (e : event) : bool :=
  match e with KerasFit _ _ _ => true | _ => false end.

Definition is_load_weights (e : event) : bool :=
  match e with KerasLoadWeights _ => true | _ => false end.

Definition is_evaluate (e : event) : bool :=
  match e with KerasEvaluate _ _ => true | _ => false end.

(** The Keras calls of a trace. *)
Definition keras_calls (t : list event) : list event :=
  List.filter
    (fun e => match e with
              | KerasSequential _ | KerasCompile _ _ _ | KerasFit _ _ _
              | KerasEvaluate _ _ | KerasPredict _ | KerasLoadWeights _
              | KerasSaveWeights => true
              | _ => false
              end) t.

(** The library function an event is a call of. *)
Definition event_name (e : event) : string :=
  match e with
  | Log _ | LogF _ _ => "log.info"
  | KerasSequential _ => "Sequential"
  | KerasCompile _ _ _ => "compile"
  | KerasFit _ _ _ => "fit"
  | KerasEvaluate _ _ => "evaluate"
  | KerasPredict _ => "predict"
  | KerasLoadWeights _ => "load_weights"
  | KerasSaveWeights => "save_weights"
  | Sleep _ => "sleep"
  | Plt _ => "plt"
  | PlotImage _ _ _ _ _ => "plot_image"
  | PlotValueArray _ _ _ => "plot_value_array"
  end.

(** Running [m] to a value appends an event that satisfies [Q]. *)
Definition on_success {A} (Q : event -> Prop) (m : M state A) : Prop :=
  forall s a s', m s = (Ok a, s') ->
                 exists new, trace s' = (trace s ++ new)%list /\ Exists Q new.

(** The [compile] call [_compile] makes in state [s]. *)
Definition compile_event (s : state) : event :=
  KerasCompile (CNNModelConfig.optimizer (model_config s))
               (CNNModelConfig.loss_function (model_config s))
               (CNNModelConfig.metrics (model_config s)).

(** Events that neither load weights nor evaluate. *)
Definition quiet (e : event) : Prop :=
  negb (is_load_weights e || is_evaluate e) = true.

(** The events a run appends: none loads weights, and an evaluation among
    them comes with a build and a fit. *)
Definition retrains (new : list event) : Prop :=
  Forall (fun e => is_load_weights e = false) new /\
  (Exists (fun e => is_evaluate e = true) new ->
   Exists (fun e => is_build e = true) new /\ Exists (fun e => is_fit e = true) new).

(** *** Further closed forms and predicates on computations *)

(** The error [load] raises on a missing weights file. *)
Definition not_found (path : string) : exn :=
  FileNotFoundError
    ("Couldn't load CNNModelELPV model from non-existing file "
       ++ repr_str path ++ ".").

(** The image [_unsqueeze_img] returns when the reshape succeeds: the first
    two axes, then a channel axis of length one, over the same buffer. *)
Definition channel_added (img : ndarray) : ndarray :=
  {| shape := (take 2 (shape img) ++ [1%nat])%list; flat := flat img |}.

(** The error of [ndarray.reshape] on a shape of another size. *)
Definition cannot_reshape : exn := ValueError "cannot reshape array".

Definition unsqueeze_log : event := Log "'Un'-squeezing images: NxM -> NxMx1".

(** The error of [full_run_from_dataset] on a type column that does not
    hold exactly one value. *)
Definition mixed_types : exn :=
  ValueError "Training dataset for multiple types; not yet supported.".



Definition is_sleep (e : event) : bool :=
  match e with Sleep _ => true | _ => false end.

(** A pause, if the event is one, lasts one second. *)
Definition pause_of_one_second (e : event) : bool :=
  match e with Sleep seconds => (seconds =? 1)%Z | _ => true end.



(** Running [m] never takes the flag [flag] from set to unset. *)
Definition never_clears {A} (flag : state -> bool) (m : M state A) : Prop :=
  forall s, flag s = true -> flag (snd (m s)) = true.

(** The state a call leaves behind. *)
Definition after {A} (m : M state A) (s : state) : state := snd (m s).

(** Running [m] never raises TensorFlow's [InternalError]. *)
Definition no_internal_error {A} (m : M state A) : Prop :=
  forall s e, fst (m s) = Raise e -> is_InternalError e = false.

(** Running [m] only appends to the trace, and at most [n] pauses. *)
Definition pauses_at_most {A} (n : nat) (m : M state A) : Prop :=
  forall s, exists new,
    trace (snd (m s)) = (trace s ++ new)%list /\
    (length (List.filter is_sleep new) <= n)%nat.





(** *** Concrete collaborators and inputs *)

Module Examples.

Definition image (shp : list nat) : ndarray :=
  {| shape := shp; flat := repeat 0%Q (size_of shp) |}.

Definition row (name : string) (shp : list nat) (score : Q) : Row :=
  {| id_col := name; img_col := image shp; type_col := "poly";
     quality_col := score |}.

(** A freshly constructed model over [df], on a machine without GPU. *)
Definition fresh (df : list Row) (present : gset string) : state :=
  {| data := df;
     training_frac := 65 # 100;
     training_data := [];
     test_data := [];
     model_config := CNNModelConfig.default false;
     class_names := default_class_names;
     _model := None;
     _compiled := false;
     _fitted := false;
     _binary_colors := false;
     _grayscale := false;
     random_pos := 0;
     files := present;
     device := DefaultDevice;
     trace := [] |}.

Definition rnd (n : nat) : nat := (7 * n + 3)%nat.

(** A runtime in which no library call fails. *)
Definition healthy (d : tf_device) (e : event) : option exn := None.

(** Stand-ins for the colour transforms: the channel axis is dropped. *)
Definition to_gray (img : ndarray) : ndarray :=
  {| shape := removelast (shape img);
     flat := take (size_of (removelast (shape img))) (flat img) |}.

Definition to_binary (img : ndarray) : ndarray := img.

Definition no_amplification (axes : list nat) (df : list Row) : outcome (list Row) :=
  Ok df.

Definition evaluation_result (history : list event) : Q * Q := (1 # 2, 1 # 2)%Q.

Definition prediction_result (history : list event) : TensorFlowPredictions :=
  [[1 # 4; 3 # 4]]%Q.

Definition weights_file : string := "elpv_model.h5".

Definition five : list Row :=
  [row "a" [2; 2] 1; row "b" [2; 2] 0; row "c" [2; 2] (1 # 2);
   row "d" [2; 2] (1 # 3); row "e" [2; 2] 1]%nat.

Definition mixed : list Row :=
  [row "a" [30; 30; 1] 1; row "b" [30; 30] 0]%nat.

Definition clash : list Row :=
  [row "a" [30; 30] 1; row "b" [40; 40] 0]%nat.

Definition colour : list Row :=
  [row "a" [30; 30; 3] 1; row "b" [30; 30; 3] 0]%nat.

Definition small_colour : list Row :=
  [row "a" [2; 2; 3] 1; row "b" [2; 2; 3] 0; row "c" [2; 2; 3] (1 # 2)]%nat.

(** A 2x2 image filled with one pixel value, and rows whose image is
    filled with their score. *)
Definition tile (v : Q) : ndarray := {| shape := [2; 2]%nat; flat := repeat v 4 |}.

Definition scored_row (name : string) (score : Q) : Row :=
  {| id_col := name; img_col := tile score; type_col := "poly";
     quality_col := score |}.

Definition scored : list Row :=
  [scored_row "a" 1; scored_row "b" 0; scored_row "c" (1 # 2);
   scored_row "d" (1 # 3)].

Definition panels : ImageDataSetELPV :=
  {| ds_data := small_colour; ds_labels_type_col := ["poly"; "poly"; "poly"] |}.

(** [full_run_from_dataset(panels)] with the weights file present, no GPU,
    no amplification, retraining not forced. *)
Definition run_with_saved_weights : outcome unit * state :=
  full_run_from_dataset false "gpu:0" weights_file to_gray to_binary
    no_amplification rnd healthy evaluation_result prediction_result
    (CNNModelConfig.default false) panels None false weights_file false
    (fresh [] {[weights_file]}).


(** A runtime in which training fails on every device but the CPU. *)
Definition gpu_broken (d : tf_device) (e : event) : option exn :=
  match d, e with
  | Device name, KerasFit _ _ _ =>
      if String.eqb name "cpu:0" then None
      else Some (InternalError "Failed copying input tensor to the GPU")
  | _, _ => None
  end.

(** An amplifier that needs a channel axis on every image, and appends a
    copy of every row. *)
Definition needs_channel_axis (axes : list nat) (df : list Row)
  : outcome (list Row) :=
  if forallb (fun r => (length (shape (img_col r)) =? 3)%nat) df
  then Ok (df ++ df)%list
  else Raise (ImageDimensionError "image has no channel axis").

(** A collection with a score between the fail and the review group. *)
Definition graded : list Row :=
  [scored_row "a" 1; scored_row "b" 0; scored_row "c" (1 # 2);
   scored_row "d" (1 # 200)].

(** A dataset whose labels hold two panel types. *)
Definition two_types : ImageDataSetELPV :=
  {| ds_data := small_colour; ds_labels_type_col := ["poly"; "mono"; "poly"] |}.

End Examples.

End Tflow.

(** * Properties *)

Import Np Tflow.

Local Open Scope list_scope.

(** Unfolding the monad's combinators only. *)
Ltac run_monad :=
  cbv beta iota zeta delta
    [bind gets modify lift ret raise when try_except emit log_info].

(** Running the monad on a state given by its fields. *)
Ltac run_py :=
  cbv beta iota zeta delta
    [bind gets modify lift ret raise when try_except emit log_info
     fst snd negb andb
     data training_frac training_data test_data model_config class_names
     _model _compiled _fitted _binary_colors _grayscale random_pos files
     device trace
     with_data with_training_data with_test_data with__model with__compiled
     with__fitted with__binary_colors with__grayscale with_random_pos
     with_files with_device with_trace map_images
     train test].

(** ** Lists and frames *)

Lemma filter_all_of_length {A} (f : A -> bool) (l : list A) :
  length (List.filter f l) = length l -> List.filter f l = l.
Proof.
  induction l as [|a l IH]; simpl; [reflexivity|].
  destruct (f a); simpl; intros H.
  - f_equal. apply IH. lia.
  - pose proof (filter_length_le f l). lia.
Qed.

Lemma filter_Permutation_bool {A} (f : A -> bool) (l l' : list A) :
  Permutation l l' -> Permutation (List.filter f l) (List.filter f l').
Proof.
  induction 1; simpl.
  - constructor.
  - destruct (f x); [constructor|]; assumption.
  - destruct (f x), (f y); try constructor; try reflexivity.
  - etransitivity; eassumption.
Qed.

Lemma filter_none {A} (f : A -> bool) (l : list A) :
  (forall r, In r l -> f r = false) -> List.filter f l = [].
Proof.
  induction l as [|a l IH]; simpl; intros H; [reflexivity|].
  rewrite (H a) by (left; reflexivity). apply IH. intros r Hr. apply H. right. exact Hr.
Qed.

Lemma filter_every {A} (f : A -> bool) (l : list A) :
  (forall r, In r l -> f r = true) -> List.filter f l = l.
Proof.
  induction l as [|a l IH]; simpl; intros H; [reflexivity|].
  rewrite (H a) by (left; reflexivity). f_equal. apply IH. intros r Hr. apply H. right. exact Hr.
Qed.

Section FrameFacts.
Context {R : Type}.

Lemma draw_Permutation (rnd : nat -> nat) (k pos : nat) (pool : list R) :
  exists rest, Permutation (Pd.draw rnd pos k pool ++ rest) pool.
Proof.
  revert pos pool. induction k as [|k IH]; intros pos pool.
  - exists pool. reflexivity.
  - destruct pool as [|r0 pool'].
    + exists []. reflexivity.
    + cbn [Pd.draw]. set (pool := r0 :: pool').
      set (i := (rnd pos mod length pool)%nat).
      assert (Hi : (i < length pool)%nat).
      { apply Nat.mod_upper_bound. subst pool. simpl. lia. }
      destruct (lookup_lt_is_Some_2 pool i Hi) as [x Hx].
      rewrite (nth_lookup_Some pool i r0 x Hx).
      destruct (IH (S pos) (delete i pool)) as [rest Hrest].
      exists rest. simpl. rewrite Hrest.
      symmetry. apply delete_Permutation. exact Hx.
Qed.

Context {K : Type} `{EqDecision K}.

Lemma occurrences_app (k : K) (l1 l2 : list K) :
  Pd.occurrences k (l1 ++ l2) = (Pd.occurrences k l1 + Pd.occurrences k l2)%nat.
Proof. unfold Pd.occurrences. rewrite List.filter_app, length_app. reflexivity. Qed.

Lemma occurrences_pos (k : K) (l : list K) :
  In k l -> (1 <= Pd.occurrences k l)%nat.
Proof.
  unfold Pd.occurrences. induction l as [|a l IH]; simpl; [tauto|].
  intros [->|H].
  - rewrite bool_decide_eq_true_2 by reflexivity. simpl. lia.
  - destruct (bool_decide (a = k)); simpl; specialize (IH H); lia.
Qed.

Lemma occurrences_Permutation (k : K) (l l' : list K) :
  Permutation l l' -> Pd.occurrences k l = Pd.occurrences k l'.
Proof.
  intros H. unfold Pd.occurrences.
  apply Permutation_length, filter_Permutation_bool, H.
Qed.

Lemma occurrences_NoDup (k : K) (l : list K) :
  List.NoDup l -> (Pd.occurrences k l <= 1)%nat.
Proof.
  unfold Pd.occurrences. induction 1 as [|a l Hnotin Hnd IH]; simpl; [lia|].
  destruct (bool_decide_reflect (a = k)) as [->|Hne]; simpl; [|exact IH].
  enough (length (List.filter (fun k' => bool_decide (k' = k)) l) = 0)%nat by lia.
  rewrite filter_none; [reflexivity|].
  intros r Hr. apply bool_decide_eq_false_2. intros ->. apply Hnotin. exact Hr.
Qed.

Variable key : R -> K.

(** The test part of a split: [train] is drawn from [df], [rest] is what
    was not drawn. *)
Lemma drop_duplicates_split (df train rest : list R) :
  Permutation (train ++ rest) df ->
  let test := Pd.drop_duplicates_keep_false key (df ++ train) in
  (forall r r', In r train -> In r' test -> key r <> key r') /\
  Permutation test
    (List.filter (fun r => (Pd.occurrences (key r) (map key (df ++ train)) =? 1)%nat) rest) /\
  (length train + length test <= length df)%nat /\
  (length train + length test = length df -> Permutation (train ++ test) df) /\
  (List.NoDup (map key df) -> length train + length test = length df).
Proof.
  intros Hperm test.
  set (once := fun r => (Pd.occurrences (key r) (map key (df ++ train)) =? 1)%nat).
  assert (Htrain : forall r, In r train -> once r = false).
  { intros r Hr. unfold once. apply Nat.eqb_neq.
    rewrite map_app, occurrences_app.
    assert (Ht : In (key r) (map key train)) by (apply in_map; exact Hr).
    assert (Hd : In (key r) (map key df)).
    { apply in_map. eapply Permutation_in; [exact Hperm|]. apply in_or_app. left. exact Hr. }
    pose proof (occurrences_pos _ _ Ht). pose proof (occurrences_pos _ _ Hd). lia. }
  assert (Htest : test = List.filter once df).
  { unfold test, Pd.drop_duplicates_keep_false. fold once.
    rewrite List.filter_app, (filter_none once train Htrain), app_nil_r. reflexivity. }
  assert (Hrest : Permutation test (List.filter once rest)).
  { rewrite Htest. rewrite <- (filter_Permutation_bool once _ _ Hperm).
    rewrite List.filter_app, (filter_none once train Htrain). reflexivity. }
  assert (Hlen : length df = (length train + length rest)%nat).
  { rewrite <- (Permutation_length Hperm), length_app. reflexivity. }
  pose proof (filter_length_le once rest) as Hle.
  pose proof (Permutation_length Hrest) as Hlt.
  split; [|split; [exact Hrest|split; [lia|split]]].
  - intros r r' Hr Hr' Heq.
    rewrite Htest in Hr'. apply filter_In in Hr' as [Hdf Honce].
    unfold once in Honce. apply Nat.eqb_eq in Honce.
    rewrite map_app, occurrences_app in Honce.
    assert (Ht : In (key r') (map key train)) by (rewrite <- Heq; apply in_map; exact Hr).
    assert (Hd : In (key r') (map key df)) by (apply in_map; exact Hdf).
    pose proof (occurrences_pos _ _ Ht). pose proof (occurrences_pos _ _ Hd). lia.
  - intros Hsum.
    assert (List.filter once rest = rest) as Hall by (apply filter_all_of_length; lia).
    rewrite Hrest, Hall. exact Hperm.
  - intros Hnd.
    enough (List.filter once rest = rest) as Hall by (rewrite Hlt, Hall; lia).
    apply filter_every. intros r Hr. unfold once. apply Nat.eqb_eq.
    assert (Hnd' : List.NoDup (map key (train ++ rest))).
    { eapply Permutation_NoDup; [|exact Hnd]. apply Permutation_map. symmetry. exact Hperm. }
    rewrite map_app, occurrences_app.
    rewrite (occurrences_Permutation _ (map key df) (map key (train ++ rest)))
      by (apply Permutation_map; symmetry; exact Hperm).
    pose proof (occurrences_NoDup (key r) _ Hnd') as Hle1.
    rewrite map_app, occurrences_app in Hle1.
    assert (Hin : In (key r) (map key rest)) by (apply in_map; exact Hr).
    pose proof (occurrences_pos _ _ Hin).
    rewrite map_app, occurrences_app. lia.
Qed.

End FrameFacts.

(** ** The train/test split *)

Lemma sample_in_range {R} (rnd : nat -> nat) (pos : nat) (frac : Q) (df : list R) :
  (0 <= frac)%Q -> (frac <= 1)%Q ->
  Pd.sample rnd pos frac df = Ok (Pd.draw rnd pos (Pd.sample_draws frac df) df).
Proof.
  intros H0 H1. unfold Pd.sample.
  rewrite (proj2 (Qle_bool_iff frac 1) H1), (proj2 (Qle_bool_iff 0 frac) H0).
  reflexivity.
Qed.

Lemma init_training_and_test_sets_eq (rnd : nat -> nat) (s : state) :
  (0 <= training_frac s)%Q -> (training_frac s <= 1)%Q ->
  init_training_and_test_sets rnd s =
  let s' := split_state rnd s in
  (if (length (training_data s') + length (test_data s') =? length (data s))%nat
   then Ok tt else Raise information_loss, s').
Proof.
  intros H0 H1.
  unfold init_training_and_test_sets, _get_training_and_test_sets, emit.
  unfold bind, gets, modify, lift, ret, when, raise.
  destruct s as [df frac tr te cfg names net c f b g pos fs dev tc].
  cbn [data training_frac random_pos trace with_trace] in *.
  rewrite sample_in_range by assumption.
  unfold split_state.
  cbn [data training_frac random_pos trace with_trace with_random_pos
    with_training_data with_test_data training_data test_data train test].
  destruct (_ =? _)%nat; reflexivity.
Qed.

(** C1.  For every sample collection and every training fraction strictly
    between 0 and 1, whatever the random stream: the collection itself is
    not changed; no identifier of the training part occurs in the test
    part; when [init_training_and_test_sets] returns, the two row counts add
    up to the row count of the collection and training ++ test is a
    rearrangement of the collection (every row covered exactly once); when
    it does not return, it has raised the consistency error and the counts
    do differ; and it returns whenever the identifiers are unique. *)
Theorem init_training_and_test_sets_partition (rnd : nat -> nat) (s : state) :
  (0 < training_frac s)%Q -> (training_frac s < 1)%Q ->
  let (o, s') := init_training_and_test_sets rnd s in
  data s' = data s /\
  (forall r r', In r (training_data s') -> In r' (test_data s') ->
                id_col r <> id_col r') /\
  match o with
  | Ok _ =>
      (length (training_data s') + length (test_data s') = length (data s))%nat /\
      Permutation (training_data s' ++ test_data s') (data s)
  | Raise e =>
      e = information_loss /\
      (length (training_data s') + length (test_data s') <> length (data s))%nat
  end /\
  (List.NoDup (map id_col (data s)) -> o = Ok tt).
Proof.
  intros Hpos Hlt.
  rewrite init_training_and_test_sets_eq by (apply Qlt_le_weak; assumption).
  destruct s as [df frac tr te cfg names net c f b g pos fs dev tc].
  unfold split_state. cbn [data training_frac random_pos trace with_trace with_random_pos
    with_training_data with_test_data training_data test_data] in *.
  set (train := Pd.draw rnd pos (Pd.sample_draws frac df) df).
  destruct (draw_Permutation rnd (Pd.sample_draws frac df) pos df) as [rest Hrest].
  fold train in Hrest.
  destruct (drop_duplicates_split id_col df train rest Hrest)
    as (Hdisj & _ & _ & Hcover & Hunique).
  set (test := Pd.drop_duplicates_keep_false id_col (df ++ train)) in *.
  destruct (Nat.eqb_spec (length train + length test) (length df)) as [Heq|Hne].
  - repeat split; auto.
  - repeat split; auto. intros Hnd. elim Hne. auto.
Qed.

(** Witness of [init_training_and_test_sets_partition]: five rows with
    distinct identifiers, split at the default fraction 0.65. *)
Lemma init_training_and_test_sets_partition_witness :
  let s := Examples.fresh Examples.five ∅ in
  (0 < training_frac s)%Q /\ (training_frac s < 1)%Q /\
  let (o, s') := init_training_and_test_sets Examples.rnd s in
  o = Ok tt /\
  map id_col (training_data s') = ["d"; "c"; "e"] /\
  map id_col (test_data s') = ["a"; "b"] /\
  Permutation (training_data s' ++ test_data s') (data s).
Proof.
  pose proof (init_training_and_test_sets_partition Examples.rnd
                (Examples.fresh Examples.five ∅)) as H.
  assert (H0 : (0 < training_frac (Examples.fresh Examples.five ∅))%Q) by reflexivity.
  assert (H1 : (training_frac (Examples.fresh Examples.five ∅) < 1)%Q) by reflexivity.
  specialize (H H0 H1).
  split; [exact H0|split; [exact H1|]].
  destruct (init_training_and_test_sets Examples.rnd (Examples.fresh Examples.five ∅))
    as [o s'] eqn:E.
  vm_compute in E. injection E as <- <-.
  destruct H as (_ & _ & [_ Hperm] & _).
  repeat split; try reflexivity. exact Hperm.
Defined.

(** ** The image and label views *)

Lemma init_ignores_test_data (rnd : nat -> nat) (held_out : list Row) (s : state) :
  fst (init_training_and_test_sets rnd (with_test_data held_out s))
  = fst (init_training_and_test_sets rnd s) /\
  training_data (snd (init_training_and_test_sets rnd (with_test_data held_out s)))
  = training_data (snd (init_training_and_test_sets rnd s)).
Proof.
  unfold init_training_and_test_sets, _get_training_and_test_sets, emit.
  unfold bind, gets, modify, lift, ret, when, raise.
  destruct s as [df frac tr te cfg names net c f b g pos fs dev tc].
  cbn [data training_frac random_pos trace with_trace with_test_data].
  destruct (Pd.sample rnd pos frac df) as [drawn|e]; [|split; reflexivity].
  cbn [data training_frac random_pos trace with_trace with_random_pos
    with_training_data with_test_data training_data test_data train test].
  destruct (negb _); split; reflexivity.
Qed.

(** C3.  In every model state, [test_images] is [train_images] and
    [test_labels] is [train_labels]; the held-out test subset has no
    influence on what they return; and what they return is read off the
    training subset of the state they leave behind. *)
Theorem test_views_read_the_training_subset (rnd : nat -> nat) (s : state) :
  test_images rnd s = train_images rnd s /\
  test_labels rnd s = train_labels rnd s /\
  (forall held_out : list Row,
      fst (test_images rnd (with_test_data held_out s)) = fst (test_images rnd s) /\
      fst (test_labels rnd (with_test_data held_out s)) = fst (test_labels rnd s)) /\
  (forall a s', test_images rnd s = (Ok a, s') <->
                train_images rnd s = (Ok a, s')) /\
  (forall a s', test_images rnd s = (Ok a, s') ->
                stack (map img_col (training_data s')) = Ok a) /\
  (forall l s', test_labels rnd s = (Ok l, s') ->
                l = map quality_col (training_data s')).
Proof.
  split; [reflexivity|]. split; [reflexivity|].
  split; [|split; [tauto|]].
  - intros held_out.
    unfold test_images, test_labels, _ensure_train_imgdata.
    unfold bind, gets, lift, ret, when.
    destruct (init_ignores_test_data rnd held_out s) as [Ho Ht].
    assert (Htr : training_data (with_test_data held_out s) = training_data s)
      by (destruct s; reflexivity).
    rewrite Htr.
    destruct (bool_decide (training_data s = [])).
    + destruct (init_training_and_test_sets rnd (with_test_data held_out s)) as [o1 s1].
      destruct (init_training_and_test_sets rnd s) as [o2 s2].
      cbn in Ho, Ht. subst o2. rewrite Ht.
      destruct o1; split; reflexivity.
    + cbn. rewrite Htr. split; reflexivity.
  - split.
    + intros a s'. unfold test_images, bind, gets, lift.
      destruct (_ensure_train_imgdata rnd s) as [[[]|e] s1]; [|discriminate].
      intros H. injection H as H <-. exact H.
    + intros l s'. unfold test_labels, bind, gets, ret.
      destruct (_ensure_train_imgdata rnd s) as [[[]|e] s1]; [|discriminate].
      intros H. injection H as <- <-. reflexivity.
Qed.

(** ** The image-type field of the configuration *)

(** C9.  Assigning BINARY, GRAYSCALE or RGB to [img_type] succeeds and
    stores the assigned member, every other field kept; assigning a value
    that is not a member of the enumeration raises [ValueError] and leaves
    the configuration, hence the stored image type, as it was. *)
Theorem img_type_setter_validates (cfg : CNNModelConfig.t) :
  (forall member, In member [BINARY; GRAYSCALE; RGB] ->
     CNNModelConfig.img_type_setter (ObjImgType member) cfg
     = (Ok tt, CNNModelConfig.with__img_type member cfg) /\
     CNNModelConfig.img_type (CNNModelConfig.with__img_type member cfg) = member) /\
  (forall v, (forall member, v <> ObjImgType member) ->
     CNNModelConfig.img_type_setter v cfg
     = (Raise (ValueError
           "Invalid image type for parameter 'img_type'. Valid: BINARY, GRAYSCALE, RGB"),
        cfg)).
Proof.
  split.
  - intros member _. destruct cfg. split; reflexivity.
  - intros v Hv. destruct v as [member| | | | |]; try reflexivity.
    elim (Hv member). reflexivity.
Qed.

(** Witness of [img_type_setter_validates]: on the default configuration,
    RGB is accepted and the string "rgb" is rejected. *)
Lemma img_type_setter_validates_witness :
  let cfg := CNNModelConfig.default false in
  CNNModelConfig.img_type (snd (CNNModelConfig.img_type_setter (ObjImgType RGB) cfg)) = RGB /\
  CNNModelConfig.img_type (snd (CNNModelConfig.img_type_setter (ObjStr "rgb") cfg)) = BINARY.
Proof.
  destruct (img_type_setter_validates (CNNModelConfig.default false)) as [Hok Hbad].
  split.
  - destruct (Hok RGB) as [-> H]; [simpl; tauto|]. exact H.
  - rewrite (Hbad (ObjStr "rgb")); [reflexivity|]. intros member. discriminate.
Defined.

(** ** Grayscale conversion *)

Lemma images_to_grayscale_keeps_binary_flag (to_gray : ndarray -> ndarray) (s : state) :
  _binary_colors (snd (images_to_grayscale_nonreversible to_gray s)) = _binary_colors s.
Proof.
  destruct s as [df frac tr te cfg names net c f b g pos fs dev tc].
  unfold images_to_grayscale_nonreversible. run_py.
  destruct b; [reflexivity|]. destruct g; [reflexivity|]. run_py.
  destruct df as [|r df]; [reflexivity|]. run_py.
  destruct (last (shape (img_col r))) as [ch|]; [|reflexivity]. run_py.
  destruct (ch =? 3)%nat; reflexivity.
Qed.

(** C5.  Grayscale conversion raises the state error, and changes nothing,
    whenever the binary flag is set.  Once a call has returned with the
    grayscale flag set, a further call returns without changing the state
    at all: every image, every flag and the log stay as they were.  Such a
    first call exists: on a collection whose first image has three
    channels, with neither flag set, the call converts every image, sets
    the flag and returns. *)
Theorem images_to_grayscale_guarded_and_idempotent
        (to_gray : ndarray -> ndarray) (s : state) :
  (_binary_colors s = true ->
   images_to_grayscale_nonreversible to_gray s = (Raise already_binary, s)) /\
  (forall s',
      images_to_grayscale_nonreversible to_gray s = (Ok tt, s') ->
      _grayscale s' = true ->
      images_to_grayscale_nonreversible to_gray s' = (Ok tt, s')) /\
  (forall r df,
      _binary_colors s = false -> _grayscale s = false ->
      data s = r :: df -> last (shape (img_col r)) = Some 3%nat ->
      exists s',
        images_to_grayscale_nonreversible to_gray s = (Ok tt, s') /\
        _grayscale s' = true /\
        data s' = map (fun r => with_img_col (to_gray (img_col r)) r) (data s)).
Proof.
  assert (Hset : forall s0, _binary_colors s0 = false -> _grayscale s0 = true ->
                            images_to_grayscale_nonreversible to_gray s0 = (Ok tt, s0)).
  { intros s0 Hb Hg.
    destruct s0 as [df frac tr te cfg names net c f b g pos fs dev tc].
    cbn in Hb, Hg. subst b g. reflexivity. }
  split; [|split].
  - intros Hb.
    destruct s as [df frac tr te cfg names net c f b g pos fs dev tc].
    cbn in Hb. subst b. reflexivity.
  - intros s' Hrun Hg. apply Hset; [|exact Hg].
    pose proof (images_to_grayscale_keeps_binary_flag to_gray s) as Hkeep.
    rewrite Hrun in Hkeep. cbn [snd] in Hkeep. rewrite Hkeep.
    destruct s as [df frac tr te cfg names net c f b g pos fs dev tc].
    destruct b; [discriminate Hrun|reflexivity].
  - intros r df Hb Hg Hdf Hlast.
    destruct s as [df0 frac tr te cfg names net c f b g pos fs dev tc].
    cbn in Hb, Hg, Hdf. subst b g df0.
    unfold images_to_grayscale_nonreversible. run_py.
    rewrite Hlast. run_py. cbn [Nat.eqb].
    eexists. split; [reflexivity|]. split; reflexivity.
Qed.

(** ** Image shape resolution *)

Lemma NoDup_all_equal {A} (a : A) (l : list A) :
  List.NoDup l -> l <> [] -> (forall x, In x l -> x = a) -> l = [a].
Proof.
  intros Hnd Hne Hall. destruct l as [|x [|y l]]; [congruence| |].
  - rewrite (Hall x); [reflexivity|left; reflexivity].
  - exfalso. inversion Hnd as [|? ? Hnotin _]; subst. apply Hnotin. left.
    rewrite (Hall x), (Hall y); simpl; auto.
Qed.

Lemma NoDup_two_values {A} (a b : A) (l : list A) :
  List.NoDup l -> In a l -> In b l -> a <> b ->
  (forall x, In x l -> x = a \/ x = b) ->
  l = [a; b] \/ l = [b; a].
Proof.
  intros Hnd Ha Hb Hab Hall.
  destruct l as [|x [|y [|z l]]].
  - destruct Ha.
  - exfalso. destruct Ha as [<-|[]], Hb as [<-|[]]. congruence.
  - inversion Hnd as [|? ? Hx _]; subst.
    assert (x <> y) by (intros ->; apply Hx; left; reflexivity).
    destruct (Hall x) as [->| ->], (Hall y) as [->| ->]; simpl; auto; congruence.
  - exfalso.
    inversion Hnd as [|? ? Hx Hnd']; subst.
    inversion Hnd' as [|? ? Hy _]; subst.
    assert (x <> y) by (intros ->; apply Hx; left; reflexivity).
    assert (x <> z) by (intros ->; apply Hx; right; left; reflexivity).
    assert (y <> z) by (intros ->; apply Hy; left; reflexivity).
    destruct (Hall x) as [->| ->], (Hall y) as [->| ->], (Hall z) as [->| ->];
      simpl; auto; congruence.
Qed.

Lemma distinct_shapes_spec (df : list Row) :
  List.NoDup (distinct_shapes df) /\
  forall shp, In shp (distinct_shapes df) <->
              exists r, In r df /\ shape (img_col r) = shp.
Proof.
  unfold distinct_shapes. split.
  - apply NoDup_ListNoDup, NoDup_elements.
  - intros shp. rewrite <- list_elem_of_In, elem_of_elements, elem_of_list_to_set.
    rewrite list_elem_of_In, in_map_iff. split; intros (r & H1 & H2); exists r; tauto.
Qed.

Lemma distinct_shapes_one (df : list Row) (shp : list nat) :
  df <> [] -> (forall r, In r df -> shape (img_col r) = shp) ->
  distinct_shapes df = [shp].
Proof.
  intros Hne Hall. destruct (distinct_shapes_spec df) as [Hnd Hin].
  apply NoDup_all_equal; [exact Hnd| |].
  - destruct df as [|r df]; [congruence|].
    intros Hnil. assert (In (shape (img_col r)) (distinct_shapes (r :: df))) as H.
    { apply Hin. exists r. split; [left|]; reflexivity. }
    rewrite Hnil in H. destruct H.
  - intros x Hx. apply Hin in Hx as (r & Hr & <-). apply Hall, Hr.
Qed.

Lemma distinct_shapes_two (df : list Row) (a b : list nat) :
  a <> b ->
  (forall r, In r df -> shape (img_col r) = a \/ shape (img_col r) = b) ->
  (exists r, In r df /\ shape (img_col r) = a) ->
  (exists r, In r df /\ shape (img_col r) = b) ->
  distinct_shapes df = [a; b] \/ distinct_shapes df = [b; a].
Proof.
  intros Hab Hall Ha Hb. destruct (distinct_shapes_spec df) as [Hnd Hin].
  apply NoDup_two_values; try assumption.
  - apply Hin, Ha.
  - apply Hin, Hb.
  - intros x Hx. apply Hin in Hx as (r & Hr & <-). apply Hall, Hr.
Qed.

Lemma squeezed_rows (df : list Row) (r : Row) :
  In r (map (fun r => with_img_col (squeeze (img_col r)) r) df) <->
  exists r0, In r0 df /\ r = with_img_col (squeeze (img_col r0)) r0.
Proof. rewrite in_map_iff. split; intros (r0 & H1 & H2); exists r0; split; auto. Qed.

(** C7.  [image_shape] squeezes at most once: it leaves the state as it was
    or as one call of [squeeze_images] leaves it.  On every collection whose
    images have the shapes (30,30,1) and (30,30), both present, it squeezes,
    every image then has the shape (30,30), and it returns rows 30, cols 30.
    On every collection whose images have the shapes (30,30) and (40,40),
    both present, it raises [ValueError] after the squeeze, with a message
    that contains the text of both shapes. *)
Theorem image_shape_squeeze_remediation (s : state) :
  (snd (image_shape s) = s \/ snd (image_shape s) = squeezed s) /\
  ((forall r, In r (data s) ->
      shape (img_col r) = [30; 30; 1] \/ shape (img_col r) = [30; 30]) ->
   (exists r, In r (data s) /\ shape (img_col r) = [30; 30; 1]) ->
   (exists r, In r (data s) /\ shape (img_col r) = [30; 30]) ->
   image_shape s = (Ok {| rows := 30; cols := 30 |}, squeezed s) /\
   forall r, In r (data (squeezed s)) -> shape (img_col r) = [30; 30]) /\
  ((forall r, In r (data s) ->
      shape (img_col r) = [30; 30] \/ shape (img_col r) = [40; 40]) ->
   (exists r, In r (data s) /\ shape (img_col r) = [30; 30]) ->
   (exists r, In r (data s) /\ shape (img_col r) = [40; 40]) ->
   exists msg,
     image_shape s = (Raise (ValueError msg), squeezed s) /\
     contains "(30, 30)" msg = true /\ contains "(40, 40)" msg = true).
Proof.
  destruct s as [df frac tr te cfg names net c f b g pos fs dev tc].
  unfold squeezed, squeeze_log. cbn [data].
  split; [|split].
  - unfold image_shape, squeeze_images. run_py.
    destruct (1 <? length (distinct_shapes df))%nat; run_py.
    + right. destruct (1 <? _)%nat; run_py; [reflexivity|].
      destruct (index _ 0) as [shp|e]; [|reflexivity]. run_py.
      destruct (ImageShape_new shp); reflexivity.
    + left. destruct (1 <? _)%nat; run_py; [reflexivity|].
      destruct (index _ 0) as [shp|e]; [|reflexivity]. run_py.
      destruct (ImageShape_new shp); reflexivity.
  - intros Hall Ha Hb.
    assert (Hsq : forall r, In r (map (fun r => with_img_col (squeeze (img_col r)) r) df) ->
                            shape (img_col r) = [30; 30]).
    { intros r Hr. apply squeezed_rows in Hr as (r0 & Hr0 & ->).
      destruct r0 as [i [shp fl] t q]. cbn.
      destruct (Hall _ Hr0) as [H|H]; cbn in H; subst shp; reflexivity. }
    split; [|exact Hsq].
    unfold image_shape, squeeze_images. run_py.
    destruct (distinct_shapes_two df [30; 30; 1] [30; 30]) as [-> | ->];
      try assumption; try discriminate.
    all: cbn [length Nat.ltb Nat.leb]; run_py.
    all: rewrite (distinct_shapes_one _ [30; 30]);
      [reflexivity| destruct df; [destruct Ha as (? & [] & _)|discriminate] | exact Hsq].
  - intros Hall Ha Hb.
    assert (Hsq : forall r, In r (map (fun r => with_img_col (squeeze (img_col r)) r) df) ->
                            shape (img_col r) = [30; 30] \/ shape (img_col r) = [40; 40]).
    { intros r Hr. apply squeezed_rows in Hr as (r0 & Hr0 & ->).
      destruct r0 as [i [shp fl] t q]. cbn.
      destruct (Hall _ Hr0) as [H|H]; cbn in H; subst shp; auto. }
    assert (Hsqa : exists r, In r (map (fun r => with_img_col (squeeze (img_col r)) r) df) /\
                             shape (img_col r) = [30; 30]).
    { destruct Ha as (r0 & Hr0 & H0). eexists. split.
      - apply squeezed_rows. exists r0. split; [exact Hr0|reflexivity].
      - destruct r0 as [i [shp fl] t q]. cbn in *. subst shp. reflexivity. }
    assert (Hsqb : exists r, In r (map (fun r => with_img_col (squeeze (img_col r)) r) df) /\
                             shape (img_col r) = [40; 40]).
    { destruct Hb as (r0 & Hr0 & H0). eexists. split.
      - apply squeezed_rows. exists r0. split; [exact Hr0|reflexivity].
      - destruct r0 as [i [shp fl] t q]. cbn in *. subst shp. reflexivity. }
    unfold image_shape, squeeze_images. run_py.
    destruct (distinct_shapes_two df [30; 30] [40; 40]) as [-> | ->];
      try assumption; try discriminate.
    all: cbn [length Nat.ltb Nat.leb]; run_py.
    all: destruct (distinct_shapes_two _ [30; 30] [40; 40] ltac:(discriminate) Hsq Hsqa Hsqb)
        as [-> | ->].
    all: cbn [length Nat.ltb Nat.leb]; run_py.
    all: eexists; split; [reflexivity|split; vm_compute; reflexivity].
Qed.

(** C10.  On every collection whose images all have one shape, of a rank
    other than two, [image_shape] raises instead of returning a shape and
    does not squeeze (the state is unchanged); on a non-empty collection the
    error is the [TypeError] of the two-field [ImageShape] constructor. *)
Theorem image_shape_rejects_other_ranks (s : state) (shp : list nat) :
  (forall r, In r (data s) -> shape (img_col r) = shp) ->
  length shp <> 2%nat ->
  exists e, image_shape s = (Raise e, s) /\
            (data s <> [] -> exists msg, e = TypeError msg).
Proof.
  intros Hall Hrank.
  destruct s as [df frac tr te cfg names net c f b g pos fs dev tc].
  cbn [data] in *.
  destruct df as [|r0 df].
  { eexists. split; [vm_compute; reflexivity|]. congruence. }
  assert (Hne : r0 :: df <> []) by discriminate.
  unfold image_shape. run_py.
  rewrite (distinct_shapes_one _ shp Hne Hall).
  cbn [length Nat.ltb Nat.leb]. run_py.
  rewrite (distinct_shapes_one _ shp Hne Hall).
  cbn [length Nat.ltb Nat.leb]. run_py.
  unfold index. cbn [lookup list_lookup]. run_py.
  destruct shp as [|d1 [|d2 [|d3 shp]]]; cbn in Hrank; try congruence;
    cbn [ImageShape_new]; eexists; (split; [reflexivity|]); intros _; eexists; reflexivity.
Qed.

(** ** Effects on the trace and on the fields *)

Section Appends.
Context (P : event -> Prop).

Lemma appends_ret {A} (a : A) : appends P (ret a).
Proof. intros s. exists []. rewrite app_nil_r. split; [reflexivity|constructor]. Qed.

Lemma appends_raise {A} (e : exn) : appends P (@raise state A e).
Proof. intros s. exists []. rewrite app_nil_r. split; [reflexivity|constructor]. Qed.

Lemma appends_gets {A} (f : state -> A) : appends P (gets f).
Proof. intros s. exists []. rewrite app_nil_r. split; [reflexivity|constructor]. Qed.

Lemma appends_lift {A} (o : outcome A) : appends P (lift o).
Proof. intros s. exists []. rewrite app_nil_r. split; [reflexivity|constructor]. Qed.

Lemma appends_modify (g : state -> state) :
  (forall s, trace (g s) = trace s) -> appends P (modify g).
Proof.
  intros Hg s. exists []. rewrite app_nil_r. split; [apply Hg|constructor].
Qed.

Lemma appends_emit (e : event) : P e -> appends P (emit e).
Proof.
  intros He s. exists [e]. split; [destruct s; reflexivity|].
  constructor; [exact He|constructor].
Qed.

Lemma appends_call rt (e : event) : P e -> appends P (call rt e).
Proof.
  intros He s. unfold call. destruct (rt (device s) e).
  - exists []. rewrite app_nil_r. split; [reflexivity|constructor].
  - exists [e]. split; [destruct s; reflexivity|]. constructor; [exact He|constructor].
Qed.

Lemma appends_bind {A B} (m : M state A) (k : A -> M state B) :
  appends P m -> (forall a, appends P (k a)) -> appends P (bind m k).
Proof.
  intros Hm Hk s. unfold bind. destruct (Hm s) as (n1 & E1 & F1).
  destruct (m s) as [[a|e] s1]; cbn [snd] in *.
  - destruct (Hk a s1) as (n2 & E2 & F2). exists (n1 ++ n2).
    rewrite E2, E1, app_assoc. split; [reflexivity|]. apply Forall_app; auto.
  - exists n1. auto.
Qed.

Lemma appends_when (c : bool) (body : M state unit) :
  appends P body -> appends P (when c body).
Proof. intros H. destruct c; [exact H|apply appends_ret]. Qed.

Lemma appends_try_except {A} (body : M state A) handles (handler : exn -> M state A) :
  appends P body -> (forall e, appends P (handler e)) ->
  appends P (try_except body handles handler).
Proof.
  intros Hm Hk s. unfold try_except. destruct (Hm s) as (n1 & E1 & F1).
  destruct (body s) as [[a|e] s1]; cbn [snd] in *.
  - exists n1. auto.
  - destruct (handles e).
    + destruct (Hk e s1) as (n2 & E2 & F2). exists (n1 ++ n2).
      rewrite E2, E1, app_assoc. split; [reflexivity|]. apply Forall_app; auto.
    + exists n1. auto.
Qed.

Lemma appends_with_tf_device {A} (name : string) (body : M state A) :
  appends P body -> appends P (with_tf_device name body).
Proof.
  intros Hm s. unfold with_tf_device.
  destruct (Hm (with_device (Device name) s)) as (n1 & E1 & F1).
  destruct (body _) as [o s1]; cbn [snd] in *.
  exists n1. split; [|exact F1].
  destruct s1, s; cbn in *. exact E1.
Qed.

End Appends.

Section Keeps.
Context {X : Type} (f : state -> X).

Lemma keeps_ret {A} (a : A) : keeps f (ret a).
Proof. intros s. reflexivity. Qed.

Lemma keeps_raise {A} (e : exn) : keeps f (@raise state A e).
Proof. intros s. reflexivity. Qed.

Lemma keeps_gets {A} (g : state -> A) : keeps f (gets g).
Proof. intros s. reflexivity. Qed.

Lemma keeps_lift {A} (o : outcome A) : keeps f (lift o).
Proof. intros s. reflexivity. Qed.

Lemma keeps_modify (g : state -> state) :
  (forall s, f (g s) = f s) -> keeps f (modify g).
Proof. intros Hg s. apply Hg. Qed.

Lemma keeps_bind {A B} (m : M state A) (k : A -> M state B) :
  keeps f m -> (forall a, keeps f (k a)) -> keeps f (bind m k).
Proof.
  intros Hm Hk s. unfold bind. specialize (Hm s).
  destruct (m s) as [[a|e] s1]; cbn [snd] in *.
  - rewrite (Hk a s1). exact Hm.
  - exact Hm.
Qed.

Lemma keeps_when (c : bool) (body : M state unit) :
  keeps f body -> keeps f (when c body).
Proof. intros H. destruct c; [exact H|apply keeps_ret]. Qed.

Lemma keeps_try_except {A} (body : M state A) handles (handler : exn -> M state A) :
  keeps f body -> (forall e, keeps f (handler e)) ->
  keeps f (try_except body handles handler).
Proof.
  intros Hm Hk s. unfold try_except. specialize (Hm s).
  destruct (body s) as [[a|e] s1]; cbn [snd] in *; [exact Hm|].
  destruct (handles e); [|exact Hm]. rewrite (Hk e s1). exact Hm.
Qed.

End Keeps.

(** Solving [appends] and [keeps] goals by the structure of the code. *)
Ltac effects :=
  repeat first
    [ apply appends_ret | apply appends_raise | apply appends_gets | apply appends_lift
    | apply appends_bind; [|intros ?] | apply appends_when
    | apply appends_try_except; [|intros ?]
    | apply appends_with_tf_device
    | apply appends_emit; reflexivity | apply appends_call; reflexivity
    | apply appends_modify; intros []; reflexivity
    | apply keeps_ret | apply keeps_raise | apply keeps_gets | apply keeps_lift
    | apply keeps_bind; [|intros ?] | apply keeps_when
    | apply keeps_try_except; [|intros ?]
    | apply keeps_modify; intros []; reflexivity
    | match goal with
      | |- appends _ (match ?x with _ => _ end) => destruct x
      | |- keeps _ (match ?x with _ => _ end) => destruct x
      | |- appends _ (let _ := _ in _) => cbv zeta
      | |- keeps _ (let _ := _ in _) => cbv zeta
      end ].


(** The computation that runs after [s] in the goal only appends events
    satisfying [P]. *)
Ltac appended_after s P n :=
  match goal with
  | |- context [snd (?c s)] =>
      let H := fresh "Happ" in
      assert (H : appends P c) by effects;
      let E := fresh "E" n in
      let F := fresh "F" n in
      destruct (H s) as (n & E & F); clear H
  end.

Lemma compile_on_built_network rt (s : state) (net : network) :
  _model s = Some net ->
  rt (device s) (compile_event s) = None ->
  _compile rt s
  = (Ok tt, with__compiled true (with_trace (trace s ++ [compile_event s]) s)).
Proof.
  intros Hnet Hrt.
  destruct s as [df frac tr te cfg names m c f b g pos fs dev tc].
  cbn in Hnet, Hrt. subst m.
  unfold _compile, the_model, call. run_py.
  rewrite bool_decide_eq_false_2 by discriminate. run_py.
  unfold compile_event in Hrt. cbn [model_config] in Hrt. rewrite Hrt. reflexivity.
Qed.

Lemma fit_with_flag_skips_compile rnd rt (s : state) :
  _compiled s = true ->
  exists new, trace (snd (_fit rnd rt s)) = trace s ++ new /\
              Forall (fun e => is_compile e = false) new.
Proof.
  intros Hflag. unfold _fit. unfold bind at 1. unfold gets at 1. rewrite Hflag.
  unfold bind at 1. cbn [negb when ret].
  appended_after s (fun e => is_compile e = false) new.
  exists new. split; assumption.
Qed.


Lemma on_success_call rt (Q : event -> Prop) (e : event) :
  Q e -> on_success Q (call rt e).
Proof.
  intros HQ s a s'. unfold call. destruct (rt (device s) e); [discriminate|].
  intros H. injection H as _ <-. exists [e]. split; [destruct s; reflexivity|].
  constructor. exact HQ.
Qed.

Lemma on_success_bind_l {A B} (Q : event -> Prop) (m : M state A) (k : A -> M state B) :
  on_success Q m -> (forall a, appends (fun _ => True) (k a)) ->
  on_success Q (bind m k).
Proof.
  intros Hm Hk s b s'. unfold bind.
  destruct (m s) as [[a|e] s1] eqn:E; [|discriminate].
  intros Hrun. destruct (Hm s a s1 E) as (n1 & E1 & X1).
  destruct (Hk a s1) as (n2 & E2 & _). rewrite Hrun in E2. cbn [snd] in E2.
  exists (n1 ++ n2). rewrite E2, E1, app_assoc. split; [reflexivity|].
  apply Exists_app. left. exact X1.
Qed.

Lemma on_success_bind_r {A B} (Q : event -> Prop) (m : M state A) (k : A -> M state B) :
  appends (fun _ => True) m -> (forall a, on_success Q (k a)) ->
  on_success Q (bind m k).
Proof.
  intros Hm Hk s b s'. unfold bind.
  destruct (Hm s) as (n1 & E1 & _).
  destruct (m s) as [[a|e] s1] eqn:E; [|discriminate]. cbn [snd] in E1.
  intros Hrun. destruct (Hk a s1 b s' Hrun) as (n2 & E2 & X2).
  exists (n1 ++ n2). rewrite E2, E1, app_assoc. split; [reflexivity|].
  apply Exists_app. right. exact X2.
Qed.

Ltac success_effects :=
  repeat first
    [ apply on_success_bind_l; [apply on_success_call; reflexivity|intros ?; effects]
    | apply on_success_bind_r; [effects|intros ?] ].

Lemma build_on_success rt : on_success (fun e => is_build e = true) (build rt).
Proof. unfold build. success_effects. Qed.

Lemma fit_on_success rnd rt : on_success (fun e => is_fit e = true) (_fit rnd rt).
Proof. unfold _fit. success_effects. Qed.

Lemma compile_on_success rt (s s' : state) :
  _model s = None -> _compile rt s = (Ok tt, s') ->
  exists new, trace s' = trace s ++ new /\ Exists (fun e => is_build e = true) new.
Proof.
  intros Hnone. unfold _compile. unfold bind at 1. unfold gets at 1. rewrite Hnone.
  rewrite bool_decide_eq_true_2 by reflexivity. cbn [when].
  apply on_success_bind_l; [apply build_on_success|intros ?; effects].
Qed.

Lemma quiet_inv (e : event) :
  quiet e -> is_load_weights e = false /\ is_evaluate e = false.
Proof. unfold quiet. destruct (is_load_weights e), (is_evaluate e); auto. Qed.

Lemma quiet_retrains (new : list event) : Forall quiet new -> retrains new.
Proof.
  intros H. split.
  - eapply Forall_impl; [exact H|]. intros e He. apply quiet_inv in He. tauto.
  - intros Hex. exfalso. apply Exists_exists in Hex as (e & He & Heval).
    rewrite Forall_forall in H. destruct (quiet_inv e (H e He)) as [_ Hq]. congruence.
Qed.

Lemma quiet_then_retrains (n1 n2 : list event) :
  Forall quiet n1 -> retrains n2 -> retrains (n1 ++ n2).
Proof.
  intros H1 [H2 H3]. split.
  - apply Forall_app. split; [|exact H2].
    eapply Forall_impl; [exact H1|]. intros e He. apply quiet_inv in He. tauto.
  - intros Hex. apply Exists_app in Hex as [Hex|Hex].
    + exfalso. apply Exists_exists in Hex as (e & He & Heval).
      rewrite Forall_forall in H1. destruct (quiet_inv e (H1 e He)) as [_ Hq]. congruence.
    + destruct (H3 Hex). split; apply Exists_app; right; assumption.
Qed.

Lemma retrains_then_quiet (n1 n2 : list event) :
  retrains n1 -> Forall quiet n2 -> retrains (n1 ++ n2).
Proof.
  intros [H1 H3] H2. split.
  - apply Forall_app. split; [exact H1|].
    eapply Forall_impl; [exact H2|]. intros e He. apply quiet_inv in He. tauto.
  - intros Hex. apply Exists_app in Hex as [Hex|Hex].
    + destruct (H3 Hex). split; apply Exists_app; left; assumption.
    + exfalso. apply Exists_exists in Hex as (e & He & Heval).
      rewrite Forall_forall in H2. destruct (quiet_inv e (H2 e He)) as [_ Hq]. congruence.
Qed.


Lemma evaluate_retrains rnd rt ke kp (s : state) :
  _model s = None ->
  exists new, trace (snd (evaluate rnd rt ke kp s)) = trace s ++ new /\ retrains new.
Proof.
  intros Hnone. unfold evaluate. unfold bind at 1.
  assert (Hc : appends quiet (_compile rt)) by effects.
  destruct (Hc s) as (n1 & E1 & F1).
  destruct (_compile rt s) as [[[]|e] s1] eqn:EC; cbn [snd] in E1.
  2:{ exists n1. cbn [snd]. split; [exact E1|apply quiet_retrains, F1]. }
  destruct (compile_on_success rt s s1 Hnone EC) as (n1' & E1' & X1).
  assert (n1' = n1) by (rewrite E1 in E1'; apply List.app_inv_head in E1'; congruence).
  subst n1'. clear E1'.
  unfold bind at 1.
  assert (Hf : appends quiet (_fit rnd rt)) by effects.
  destruct (Hf s1) as (n2 & E2 & F2).
  destruct (_fit rnd rt s1) as [[[]|e] s2] eqn:EF; cbn [snd] in E2.
  2:{ exists (n1 ++ n2). cbn [snd]. rewrite E2, E1, app_assoc. split; [reflexivity|].
      apply quiet_retrains, Forall_app. auto. }
  destruct (fit_on_success rnd rt s1 tt s2 EF) as (n2' & E2' & X2).
  assert (n2' = n2) by (rewrite E2 in E2'; apply List.app_inv_head in E2'; congruence).
  subst n2'. clear E2'.
  appended_after s2 (fun e => is_load_weights e = false) n3.
  exists (n1 ++ n2 ++ n3). rewrite En3, E2, E1, !app_assoc. split; [reflexivity|].
  split.
  - rewrite !Forall_app. repeat split; try assumption.
    + eapply Forall_impl; [exact F1|]. intros e He. apply quiet_inv in He. tauto.
    + eapply Forall_impl; [exact F2|]. intros e He. apply quiet_inv in He. tauto.
  - intros _. split.
    + apply Exists_app. left. apply Exists_app. left. exact X1.
    + apply Exists_app. left. apply Exists_app. right. exact X2.
Qed.


Lemma bind_run {A B} (m : M state A) (k : A -> M state B) (s : state) :
  bind m k s = match m s with
               | (Ok a, s') => k a s'
               | (Raise e, s') => (Raise e, s')
               end.
Proof. reflexivity. Qed.

Lemma load_without_network rt (path : string) (s : state) :
  _model s = None ->
  snd (load rt path s) = s /\
  (path ∈ files s -> load rt path s = (Ok tt, s)).
Proof.
  intros Hnone.
  destruct s as [df frac tr te cfg names net c f b g pos fs dev tc].
  cbn in Hnone. subst net. cbn [files].
  unfold load. run_monad. cbn [files _model].
  rewrite (bool_decide_eq_false_2 (None <> None)) by congruence.
  destruct (bool_decide_reflect (path ∈ fs)) as [Hin|Hout]; cbn [negb andb].
  - split; reflexivity.
  - split; [reflexivity|]. tauto.
Qed.

(** C2 (the code departs from the claim).  In every run of
    [full_run_from_dataset] in which the weights file exists and retraining
    is not forced, whatever the collaborators do: no [load_weights] call is
    ever made ([load] finds no network to load into), and when the run gets
    to evaluate the network, it has built it and fitted it in that same
    run. *)
Theorem full_run_with_saved_weights_retrains
        (GPU_AVAILABLE : bool) (DEFAULT_GPU DEFAULT_ELPV_MODELPATH : string)
        (rgb_to_grayscale grayscale_to_binary : ndarray -> ndarray)
        (dataset_amplify_data : list nat -> list Row -> outcome (list Row))
        (rnd : nat -> nat)
        (runtime_error : tf_device -> event -> option exn)
        (keras_evaluate : list event -> Q * Q)
        (keras_predict : list event -> TensorFlowPredictions)
        (default_config : CNNModelConfig.t) (dataset : ImageDataSetELPV)
        (tolerance : option Q) (amplify : bool) (model_savepath : string)
        (s : state) :
  model_savepath ∈ files s ->
  exists new,
    trace (snd (full_run_from_dataset GPU_AVAILABLE DEFAULT_GPU
                  DEFAULT_ELPV_MODELPATH rgb_to_grayscale grayscale_to_binary
                  dataset_amplify_data rnd runtime_error keras_evaluate
                  keras_predict default_config dataset tolerance amplify
                  model_savepath false s))
    = trace s ++ new /\
    Forall (fun e => is_load_weights e = false) new /\
    (Exists (fun e => is_evaluate e = true) new ->
     Exists (fun e => is_build e = true) new /\
     Exists (fun e => is_fit e = true) new).
Proof.
  intros Hfile. fold (retrains).
  unfold full_run_from_dataset. cbv zeta.
  (* the constructor *)
  rewrite bind_run.
  destruct (CNNModel_init dataset default_config default_class_names s) as [o1 s1] eqn:E0.
  unfold CNNModel_init, modify in E0. injection E0 as <- Hs1.
  assert (Hm1 : _model s1 = None) by (subst s1; reflexivity).
  assert (Hf1 : files s1 = files s) by (subst s1; reflexivity).
  assert (Ht1 : trace s1 = trace s) by (subst s1; reflexivity).
  clear Hs1. rewrite <- Ht1.
  (* one panel type *)
  rewrite bind_run.
  destruct (negb _).
  { exists []. cbn. rewrite app_nil_r. split; [reflexivity|apply quiet_retrains; constructor]. }
  cbn [when ret].
  (* colour conversion *)
  rewrite bind_run. unfold gets at 1. cbv beta iota. rewrite bind_run.
  match goal with
  | |- context [match ?c s1 with _ => _ end] => set (convert := c)
  end.
  assert (Hck : keeps _model convert)
    by (subst convert; destruct (CNNModelConfig.img_type (model_config s1)); effects).
  assert (Hcf : keeps files convert)
    by (subst convert; destruct (CNNModelConfig.img_type (model_config s1)); effects).
  assert (Hca : appends quiet convert)
    by (subst convert; destruct (CNNModelConfig.img_type (model_config s1)); effects).
  specialize (Hck s1). specialize (Hcf s1). destruct (Hca s1) as (n2 & E2 & F2). clear Hca.
  destruct (convert s1) as [[[]|e] s2]; cbn [snd] in *.
  2:{ exists n2. split; [exact E2|apply quiet_retrains, F2]. }
  (* amplification *)
  rewrite bind_run.
  match goal with
  | |- context [match ?c s2 with _ => _ end] => set (amplification := c)
  end.
  assert (Hak : keeps _model amplification) by (subst amplification; effects).
  assert (Haf : keeps files amplification) by (subst amplification; effects).
  assert (Haa : appends quiet amplification) by (subst amplification; effects).
  specialize (Hak s2). specialize (Haf s2). destruct (Haa s2) as (n3 & E3 & F3). clear Haa.
  destruct (amplification s2) as [[[]|e] s3]; cbn [snd] in *.
  2:{ exists (n2 ++ n3). split; [rewrite E3, E2, <- app_assoc; reflexivity|].
      apply quiet_retrains, Forall_app. auto. }
  (* the weights file is there and retraining is not forced *)
  rewrite bind_run. unfold gets at 1. cbv beta iota.
  rewrite bool_decide_eq_true_2 by (rewrite Haf, Hcf, Hf1; exact Hfile).
  cbn [andb negb].
  rewrite bind_run. rewrite bind_run.
  assert (Hm3 : _model s3 = None) by congruence.
  destruct (load_without_network runtime_error DEFAULT_ELPV_MODELPATH s3 Hm3) as [Hload _].
  destruct (load runtime_error DEFAULT_ELPV_MODELPATH s3) as [[[]|e] s3']; cbn [snd] in Hload;
    subst s3'.
  2:{ exists (n2 ++ n3). cbn [snd]. split; [rewrite E3, E2, <- app_assoc; reflexivity|].
      apply quiet_retrains, Forall_app. auto. }
  destruct (evaluate_retrains rnd runtime_error keras_evaluate keras_predict s3 Hm3)
    as (n4 & E4 & R4).
  destruct (evaluate rnd runtime_error keras_evaluate keras_predict s3) as [[ev|e] s4];
    cbn [snd] in E4.
  2:{ exists ((n2 ++ n3) ++ n4). cbn [snd].
      split; [rewrite E4, E3, E2, <- !app_assoc; reflexivity|].
      apply quiet_then_retrains; [apply Forall_app; auto|exact R4]. }
  (* saving and plotting *)
  appended_after s4 quiet n5.
  exists ((n2 ++ n3) ++ n4 ++ n5).
  split; [rewrite En5, E4, E3, E2, <- !app_assoc; reflexivity|].
  apply quiet_then_retrains; [apply Forall_app; auto|].
  apply retrains_then_quiet; assumption.
Qed.

(** Witness of [full_run_with_saved_weights_retrains]: three colour images
    of one panel type, the weights file present, retraining not forced.
    The run returns, and its Keras calls are a build, a compile, a fit, an
    evaluation, a prediction and a save. *)
Lemma full_run_with_saved_weights_retrains_witness :
  Examples.weights_file ∈ files (Examples.fresh [] {[Examples.weights_file]}) /\
  fst Examples.run_with_saved_weights = Ok tt /\
  map event_name (keras_calls (trace (snd Examples.run_with_saved_weights)))
  = ["Sequential"; "compile"; "fit"; "evaluate"; "predict"; "save_weights"] /\
  exists new,
    trace (snd Examples.run_with_saved_weights) = [] ++ new /\
    Forall (fun e => is_load_weights e = false) new /\
    Exists (fun e => is_build e = true) new /\
    Exists (fun e => is_fit e = true) new.
Proof.
  assert (Hfile : Examples.weights_file
                    ∈ files (Examples.fresh [] {[Examples.weights_file]}))
    by (cbn [Examples.fresh files]; apply elem_of_singleton_2; reflexivity).
  split; [exact Hfile|]. split; [vm_compute; reflexivity|].
  split; [vm_compute; reflexivity|].
  destruct (full_run_with_saved_weights_retrains false "gpu:0"
              Examples.weights_file Examples.to_gray Examples.to_binary
              Examples.no_amplification Examples.rnd Examples.healthy
              Examples.evaluation_result Examples.prediction_result
              (CNNModelConfig.default false) Examples.panels None false
              Examples.weights_file _ Hfile) as (new & Hnew & Hload & Htrain).
  exists new. split; [exact Hnew|]. split; [exact Hload|].
  apply Htrain.
  change (trace (snd Examples.run_with_saved_weights) = [] ++ new) in Hnew.
  cbn [app] in Hnew. rewrite <- Hnew. vm_compute.
  do 10 apply Exists_cons_tl. apply Exists_cons_hd. reflexivity.
Defined.

(** ** The label partition *)





(** [np.isclose] with the default relative tolerance. *)
Lemma isclose_iff (a b t : Q) :
  isclose a b rtol_default t = true <->
  (Qabs (a - b) <= t + (1 # 100000) * Qabs b)%Q.
Proof. unfold isclose, rtol_default. apply Qle_bool_iff. Qed.


Lemma isclose_zero_iff (a t : Q) :
  isclose a 0 rtol_default t = true <-> (Qabs a <= t)%Q.
Proof.
  rewrite isclose_iff.
  assert (E1 : (a - 0 == a)%Q) by ring.
  assert (E2 : (t + (1 # 100000) * Qabs 0 == t)%Q) by (change (Qabs 0) with 0%Q; ring).
  rewrite E1, E2. reflexivity.
Qed.


Lemma in_group {A} (column : Row -> A) (keep : Row -> bool) (df : list Row) (x : A) :
  In x (map column (List.filter keep df)) <->
  exists r, In r df /\ column r = x /\ keep r = true.
Proof.
  rewrite in_map_iff. split.
  - intros (r & E & Hr). apply filter_In in Hr as [Hr Hk]. exists r. auto.
  - intros (r & Hr & E & Hk). exists r. split; [exact E|]. apply filter_In. auto.
Qed.

Lemma get_train_data_by_label_returns (rnd : nat -> nat) (tolerance : option Q)
      (s s' : state) (groups : DataByLabelsELPV ndarray) :
  get_train_data_by_label rnd tolerance s = (Ok groups, s') ->
  groups = by_label img_col
             (match tolerance with None => FLOAT_COMP_TOL | Some t => t end)
             (data s).
Proof.
  unfold get_train_data_by_label. cbv zeta. rewrite bind_run.
  assert (Hkeep : keeps data (_ensure_train_imgdata rnd)) by effects.
  specialize (Hkeep s).
  destruct (_ensure_train_imgdata rnd s) as [[[]|e] s1]; [|discriminate].
  cbn [snd] in Hkeep. run_monad. rewrite Hkeep.
  intros H. injection H as <- _. reflexivity.
Qed.



(** ** Compile and the compiled flag *)

(** C4, as stated, fails: on a model over five 2x2 images, the first
    [_compile] builds and compiles and sets the flag; the second [_compile],
    called with the flag set, makes a further Keras [compile] call. *)
Lemma second_compile_recompiles :
  let s0 := Examples.fresh Examples.five ∅ in
  let s1 := snd (_compile Examples.healthy s0) in
  let s2 := snd (_compile Examples.healthy s1) in
  _compiled s1 = true /\
  map event_name (keras_calls (trace s1)) = ["Sequential"; "compile"] /\
  map event_name (keras_calls (trace s2)) = ["Sequential"; "compile"; "compile"] /\
  trace s2 = trace s1 ++ [compile_event s1].
Proof. vm_compute. repeat split; reflexivity. Qed.

(** C4, amended.  [_compile] sets the compiled flag and never reads it: on
    a built network, every call whose Keras [compile] does not fail appends
    that [compile] call and sets the flag, whether the flag was set or not.
    The flag is read by [_fit] only: with the flag set, [_fit] makes no
    [compile] call. *)
Theorem compile_ignores_flag_fit_reads_it (rnd : nat -> nat)
        (runtime_error : tf_device -> event -> option exn) (s : state) :
  (forall net,
      _model s = Some net ->
      runtime_error (device s) (compile_event s) = None ->
      _compile runtime_error s
      = (Ok tt, with__compiled true (with_trace (trace s ++ [compile_event s]) s))) /\
  (_compiled s = true ->
   exists new,
     trace (snd (_fit rnd runtime_error s)) = trace s ++ new /\
     Forall (fun e => is_compile e = false) new).
Proof.
  split.
  - intros net. apply compile_on_built_network.
  - apply fit_with_flag_skips_compile.
Qed.

(** Witness of [compile_ignores_flag_fit_reads_it]: the state a first
    [_compile] leaves behind. *)
Lemma compile_ignores_flag_fit_reads_it_witness :
  let s1 := snd (_compile Examples.healthy (Examples.fresh Examples.five ∅)) in
  _compiled s1 = true /\
  trace (snd (_compile Examples.healthy s1)) = trace s1 ++ [compile_event s1] /\
  exists new,
    trace (snd (_fit Examples.rnd Examples.healthy s1)) = trace s1 ++ new /\
    Forall (fun e => is_compile e = false) new.
Proof.
  cbv zeta.
  set (s1 := snd (_compile Examples.healthy (Examples.fresh Examples.five ∅))).
  destruct (compile_ignores_flag_fit_reads_it Examples.rnd Examples.healthy s1)
    as [Hcompile Hfit].
  split; [reflexivity|]. split.
  - rewrite (Hcompile {| input_shape := {| rows := 2; cols := 2 |};
                         hidden_units := 128; hidden_activation := "relu";
                         output_units := 10 |}); reflexivity.
  - apply Hfit. reflexivity.
Defined.

(** ** Witnesses on concrete collections *)

(** Witness of [images_to_grayscale_guarded_and_idempotent]: two colour
    images; the first call converts, the second changes nothing, and with
    the binary flag set the call raises. *)
Lemma images_to_grayscale_guarded_and_idempotent_witness :
  let s := Examples.fresh Examples.colour ∅ in
  (exists s',
      images_to_grayscale_nonreversible Examples.to_gray s = (Ok tt, s') /\
      _grayscale s' = true /\
      images_to_grayscale_nonreversible Examples.to_gray s' = (Ok tt, s')) /\
  images_to_grayscale_nonreversible Examples.to_gray (with__binary_colors true s)
  = (Raise already_binary, with__binary_colors true s).
Proof.
  cbv zeta. split.
  - destruct (images_to_grayscale_guarded_and_idempotent Examples.to_gray
                (Examples.fresh Examples.colour ∅)) as (_ & Hidem & Hconv).
    destruct (Hconv (Examples.row "a" [30; 30; 3] 1) [Examples.row "b" [30; 30; 3] 0]
                eq_refl eq_refl eq_refl eq_refl) as (s' & Hrun & Hgray & _).
    exists s'. split; [exact Hrun|]. split; [exact Hgray|].
    apply Hidem; assumption.
  - destruct (images_to_grayscale_guarded_and_idempotent Examples.to_gray
                (with__binary_colors true (Examples.fresh Examples.colour ∅)))
      as (Hbinary & _).
    apply Hbinary. reflexivity.
Defined.




(** Witness of [image_shape_squeeze_remediation]: one image of shape
    (30,30,1) with one of shape (30,30), and one of shape (30,30) with one
    of shape (40,40). *)
Lemma image_shape_squeeze_remediation_witness :
  image_shape (Examples.fresh Examples.mixed ∅)
  = (Ok {| rows := 30; cols := 30 |}, squeezed (Examples.fresh Examples.mixed ∅)) /\
  exists msg,
    image_shape (Examples.fresh Examples.clash ∅)
    = (Raise (ValueError msg), squeezed (Examples.fresh Examples.clash ∅)) /\
    contains "(30, 30)" msg = true /\ contains "(40, 40)" msg = true.
Proof.
  split.
  - destruct (image_shape_squeeze_remediation (Examples.fresh Examples.mixed ∅))
      as (_ & Hmixed & _).
    apply Hmixed.
    + intros r [<-|[<-|[]]]; cbn; auto.
    + exists (Examples.row "a" [30; 30; 1] 1). cbn. auto.
    + exists (Examples.row "b" [30; 30] 0). cbn. auto.
  - destruct (image_shape_squeeze_remediation (Examples.fresh Examples.clash ∅))
      as (_ & _ & Hclash).
    apply Hclash.
    + intros r [<-|[<-|[]]]; cbn; auto.
    + exists (Examples.row "a" [30; 30] 1). cbn. auto.
    + exists (Examples.row "b" [40; 40] 0). cbn. auto.
Defined.

(** Witness of [image_shape_rejects_other_ranks]: two colour images of
    shape (30,30,3). *)
Lemma image_shape_rejects_other_ranks_witness :
  exists msg,
    image_shape (Examples.fresh Examples.colour ∅)
    = (Raise (TypeError msg), Examples.fresh Examples.colour ∅).
Proof.
  destruct (image_shape_rejects_other_ranks (Examples.fresh Examples.colour ∅)
              [30; 30; 3]) as (e & Hrun & Htype).
  - intros r [<-|[<-|[]]]; reflexivity.
  - cbn. lia.
  - destruct Htype as [msg ->]; [discriminate|]. exists msg. exact Hrun.
Defined.

(** * Further properties of the model component *)

(** ** Loading and deleting the saved model *)

Lemma load_without_file (runtime_error : tf_device -> event -> option exn)
      (path : string) (s : state) :
  path ∉ files s -> load runtime_error path s = (Raise (not_found path), s).
Proof.
  intros Hout. destruct s as [df frac tr te cfg names net c f b g pos fs dev tc].
  cbn [files] in Hout. unfold load. run_monad. cbn [files _model].
  rewrite (bool_decide_eq_false_2 _ Hout). reflexivity.
Qed.

(** X1.  [load] has three cases.  With the weights file missing it raises
    FileNotFoundError naming the path and changes nothing, whether or not a
    network exists.  With the file present and no network built it returns
    without any library call and changes nothing.  With the file present
    and a network built it makes one [load_weights] call for that path:
    the call is recorded, or its failure is raised with the state
    unchanged. *)
Theorem load_cases (runtime_error : tf_device -> event -> option exn)
        (path : string) (s : state) :
  (path ∉ files s -> load runtime_error path s = (Raise (not_found path), s)) /\
  (path ∈ files s -> _model s = None -> load runtime_error path s = (Ok tt, s)) /\
  (path ∈ files s -> _model s <> None ->
   load runtime_error path s
   = match runtime_error (device s) (KerasLoadWeights path) with
     | None => (Ok tt, with_trace (trace s ++ [KerasLoadWeights path]) s)
     | Some err => (Raise err, s)
     end).
Proof.
  split; [apply load_without_file|].
  destruct s as [df frac tr te cfg names net c f b g pos fs dev tc].
  cbn [files _model device trace with_trace].
  unfold load, call. run_monad. cbn [files _model device trace with_trace].
  split.
  - intros Hin ->. rewrite (bool_decide_eq_true_2 _ Hin).
    rewrite (bool_decide_eq_false_2 (None <> None)) by congruence. reflexivity.
  - intros Hin Hnet. rewrite (bool_decide_eq_true_2 _ Hin).
    rewrite (bool_decide_eq_true_2 _ Hnet). cbn [andb device trace with_trace].
    destruct (runtime_error dev (KerasLoadWeights path)); reflexivity.
Qed.

(** Witness of [load_cases]: a model without network, without and with
    the weights file. *)
Lemma load_cases_witness :
  load Examples.healthy Examples.weights_file (Examples.fresh [] ∅)
  = (Raise (not_found Examples.weights_file), Examples.fresh [] ∅) /\
  load Examples.healthy Examples.weights_file
    (Examples.fresh [] {[Examples.weights_file]})
  = (Ok tt, Examples.fresh [] {[Examples.weights_file]}).
Proof.
  split.
  - apply (load_cases Examples.healthy Examples.weights_file (Examples.fresh [] ∅)).
    cbn [Examples.fresh files]. apply not_elem_of_empty.
  - apply (load_cases Examples.healthy Examples.weights_file
             (Examples.fresh [] {[Examples.weights_file]})).
    + cbn [Examples.fresh files]. apply elem_of_singleton_2. reflexivity.
    + reflexivity.
Defined.


(** ** Binary conversion *)

Lemma images_to_binary_after_grayscale
      (rgb_to_grayscale grayscale_to_binary : ndarray -> ndarray) (s : state) :
  _grayscale s = true ->
  exists s',
    images_to_binary rgb_to_grayscale grayscale_to_binary s = (Ok tt, s') /\
    data s' = map (fun r => with_img_col (grayscale_to_binary (img_col r)) r) (data s) /\
    _binary_colors s' = true /\ _grayscale s' = true.
Proof.
  intros Hgray.
  destruct s as [df frac tr te cfg names net c f b g pos fs dev tc].
  cbn in Hgray. subst g.
  unfold images_to_binary. run_py.
  eexists. split; [reflexivity|]. repeat split.
Qed.

(** X3.  On unconverted images whose first image has three channels,
    [images_to_binary] returns with every image replaced by
    [grayscale_to_binary (rgb_to_grayscale image)] and with both flags set.
    On a model whose grayscale flag is set it returns with
    [grayscale_to_binary] applied to every image, also when the binary
    flag is already set: the binary conversion has no guard of its own, so
    a second call transforms the images a second time. *)
Theorem images_to_binary_composes_and_repeats
        (rgb_to_grayscale grayscale_to_binary : ndarray -> ndarray) (s : state) :
  (forall r df,
      _binary_colors s = false -> _grayscale s = false ->
      data s = r :: df -> last (shape (img_col r)) = Some 3%nat ->
      exists s',
        images_to_binary rgb_to_grayscale grayscale_to_binary s = (Ok tt, s') /\
        data s' = map (fun r => with_img_col
                                  (grayscale_to_binary (rgb_to_grayscale (img_col r))) r)
                      (data s) /\
        _binary_colors s' = true /\ _grayscale s' = true) /\
  (_grayscale s = true ->
   exists s',
     images_to_binary rgb_to_grayscale grayscale_to_binary s = (Ok tt, s') /\
     data s' = map (fun r => with_img_col (grayscale_to_binary (img_col r)) r) (data s) /\
     _binary_colors s' = true /\ _grayscale s' = true).
Proof.
  split; [|apply images_to_binary_after_grayscale].
  intros r df Hb Hg Hdf Hlast.
  destruct s as [df0 frac tr te cfg names net c f b g pos fs dev tc].
  cbn in Hb, Hg, Hdf. subst b g df0.
  unfold images_to_binary, images_to_grayscale_nonreversible. run_py.
  rewrite Hlast. run_py. cbn [Nat.eqb]. run_py.
  eexists. split; [reflexivity|]. cbn [data _binary_colors _grayscale].
  split; [|split; reflexivity].
  rewrite map_map. reflexivity.
Qed.

(** Witness of [images_to_binary_composes_and_repeats]: three colour
    images, converted twice. *)
Lemma images_to_binary_composes_and_repeats_witness :
  exists s' s'',
    images_to_binary Examples.to_gray Examples.to_binary
      (Examples.fresh Examples.small_colour ∅) = (Ok tt, s') /\
    _binary_colors s' = true /\ _grayscale s' = true /\
    images_to_binary Examples.to_gray Examples.to_binary s' = (Ok tt, s'') /\
    data s''
    = map (fun r => with_img_col (Examples.to_binary (img_col r)) r) (data s').
Proof.
  destruct (images_to_binary_composes_and_repeats Examples.to_gray
              Examples.to_binary (Examples.fresh Examples.small_colour ∅))
    as [Hfirst _].
  destruct (Hfirst (Examples.row "a" [2; 2; 3] 1)
              [Examples.row "b" [2; 2; 3] 0; Examples.row "c" [2; 2; 3] (1 # 2)]
              eq_refl eq_refl eq_refl eq_refl)
    as (s' & Hrun & _ & Hbinary & Hgray).
  destruct (images_to_binary_composes_and_repeats Examples.to_gray
              Examples.to_binary s') as [_ Hagain].
  destruct (Hagain Hgray) as (s'' & Hrun' & Hdata & _).
  exists s', s''. split; [exact Hrun|]. split; [exact Hbinary|].
  split; [exact Hgray|]. split; [exact Hrun'|exact Hdata].
Defined.

(** X4.  On unconverted images whose first image does not have three
    channels, [images_to_binary] skips the grayscale step but still applies
    [grayscale_to_binary] to every image and sets the binary flag, leaving
    the grayscale flag unset.  From then on both
    [images_to_grayscale_nonreversible] and [images_to_binary] raise the
    ValueError of the grayscale guard and change nothing. *)
Theorem images_to_binary_without_colour_locks_conversion
        (rgb_to_grayscale grayscale_to_binary : ndarray -> ndarray)
        (s : state) (r : Row) (df : list Row) (channels : nat) :
  _binary_colors s = false -> _grayscale s = false ->
  data s = r :: df -> last (shape (img_col r)) = Some channels ->
  channels <> 3%nat ->
  exists s',
    images_to_binary rgb_to_grayscale grayscale_to_binary s = (Ok tt, s') /\
    data s' = map (fun r => with_img_col (grayscale_to_binary (img_col r)) r) (data s) /\
    _binary_colors s' = true /\ _grayscale s' = false /\
    images_to_grayscale_nonreversible rgb_to_grayscale s' = (Raise already_binary, s') /\
    images_to_binary rgb_to_grayscale grayscale_to_binary s' = (Raise already_binary, s').
Proof.
  intros Hb Hg Hdf Hlast Hch.
  destruct s as [df0 frac tr te cfg names net c f b g pos fs dev tc].
  cbn in Hb, Hg, Hdf. subst b g df0.
  unfold images_to_binary, images_to_grayscale_nonreversible. run_py.
  rewrite Hlast. run_py. rewrite (proj2 (Nat.eqb_neq channels 3) Hch). run_py.
  eexists. split; [reflexivity|]. repeat split.
Qed.

(** Witness of [images_to_binary_without_colour_locks_conversion]: five
    images of shape (2,2). *)
Lemma images_to_binary_without_colour_locks_conversion_witness :
  exists s',
    images_to_binary Examples.to_gray Examples.to_binary
      (Examples.fresh Examples.five ∅) = (Ok tt, s') /\
    _binary_colors s' = true /\ _grayscale s' = false /\
    images_to_binary Examples.to_gray Examples.to_binary s'
    = (Raise already_binary, s').
Proof.
  destruct (images_to_binary_without_colour_locks_conversion Examples.to_gray
              Examples.to_binary (Examples.fresh Examples.five ∅)
              (Examples.row "a" [2; 2] 1)
              [Examples.row "b" [2; 2] 0; Examples.row "c" [2; 2] (1 # 2);
               Examples.row "d" [2; 2] (1 # 3); Examples.row "e" [2; 2] 1]
              2%nat eq_refl eq_refl eq_refl eq_refl)
    as (s' & Hrun & _ & Hbinary & Hgray & _ & Hagain).
  - lia.
  - exists s'. split; [exact Hrun|]. split; [exact Hbinary|].
    split; [exact Hgray|exact Hagain].
Defined.

(** ** Squeezing and unsqueezing *)

Lemma traverse_all_ok {A B} (f : A -> outcome B) (g : A -> B) (l : list A) :
  (forall a, In a l -> f a = Ok (g a)) -> traverse f l = Ok (map g l).
Proof.
  induction l as [|a l IH]; intros H; [reflexivity|].
  cbn [traverse map]. rewrite (H a) by (left; reflexivity).
  rewrite IH by (intros x Hx; apply H; right; exact Hx). reflexivity.
Qed.

Lemma traverse_some_raise {A B} (f : A -> outcome B) (e : exn) (l : list A) :
  (forall a b, f a = Raise b -> b = e) ->
  (exists a, In a l /\ f a = Raise e) -> traverse f l = Raise e.
Proof.
  intros Honly. induction l as [|a l IH]; intros (x & Hx & Hfx); [destruct Hx|].
  cbn [traverse]. destruct (f a) as [b|e'] eqn:E.
  - destruct Hx as [->|Hx]; [congruence|].
    rewrite IH by (exists x; auto). reflexivity.
  - rewrite (Honly a e' E). reflexivity.
Qed.

Lemma unsqueeze_img_rank2 (img : ndarray) (n m : nat) :
  shape img = [n; m] ->
  _unsqueeze_img img = Ok (channel_added img) /\
  shape (channel_added img) = [n; m; 1%nat] /\
  (squeeze (channel_added img) = img <-> n <> 1%nat /\ m <> 1%nat).
Proof.
  intros Hshape. destruct img as [shp fl]. cbn in Hshape. subst shp.
  unfold _unsqueeze_img, reshape, channel_added, squeeze. cbn [shape flat take app].
  split; [|split; [reflexivity|]].
  - replace (size_of [n; m; 1%nat]) with (size_of [n; m]) by (cbn; lia).
    rewrite Nat.eqb_refl. reflexivity.
  - cbn [List.filter]. change (1 =? 1)%nat with true. cbn [negb].
    destruct (Nat.eqb_spec n 1) as [Hn|Hn], (Nat.eqb_spec m 1) as [Hm|Hm]; cbn [negb].
    + split; [intros H; inversion H|intros [? _]; congruence].
    + split; [intros H; inversion H|intros [? _]; congruence].
    + split; [intros H; inversion H|intros [_ ?]; congruence].
    + split; [intros _; split; assumption|reflexivity].
Qed.

(** X5.  On a collection in which every image has two axes, neither of
    length one, [unsqueeze_images] returns with every image reshaped to
    (n, m, 1) over the same pixels, and a following [squeeze_images]
    restores the data exactly. *)
Theorem unsqueeze_then_squeeze_restores (s : state) :
  (forall r, In r (data s) ->
             exists n m, shape (img_col r) = [n; m] /\ n <> 1%nat /\ m <> 1%nat) ->
  exists s1 s2,
    unsqueeze_images s = (Ok tt, s1) /\
    data s1 = map (fun r => with_img_col (channel_added (img_col r)) r) (data s) /\
    squeeze_images s1 = (Ok tt, s2) /\
    data s2 = data s.
Proof.
  intros Hrank.
  destruct s as [df frac tr te cfg names net c f b g pos fs dev tc].
  cbn [data] in Hrank.
  unfold unsqueeze_images, squeeze_images. run_py.
  rewrite (traverse_all_ok _ (fun r => with_img_col (channel_added (img_col r)) r)).
  2:{ intros r Hr. destruct (Hrank r Hr) as (n & m & Hshape & _).
      destruct (unsqueeze_img_rank2 _ n m Hshape) as (-> & _). reflexivity. }
  run_py. eexists. eexists. split; [reflexivity|]. cbn [data].
  split; [reflexivity|]. split; [reflexivity|].
  rewrite map_map. rewrite <- (map_id df) at 2. apply map_ext_in.
  intros r Hr. destruct (Hrank r Hr) as (n & m & Hshape & Hn & Hm).
  destruct (unsqueeze_img_rank2 _ n m Hshape) as (_ & _ & Hback).
  destruct r as [i img t q]. unfold with_img_col. cbn [id_col img_col type_col quality_col] in *.
  rewrite (proj2 Hback) by auto. reflexivity.
Qed.

(** Witness of [unsqueeze_then_squeeze_restores]: five images of shape
    (2,2). *)
Lemma unsqueeze_then_squeeze_restores_witness :
  exists s1 s2,
    unsqueeze_images (Examples.fresh Examples.five ∅) = (Ok tt, s1) /\
    map (fun r => shape (img_col r)) (data s1) = repeat [2; 2; 1]%nat 5 /\
    squeeze_images s1 = (Ok tt, s2) /\
    data s2 = Examples.five.
Proof.
  destruct (unsqueeze_then_squeeze_restores (Examples.fresh Examples.five ∅))
    as (s1 & s2 & Hwide & Hdata & Hback & Hsame).
  - intros r Hr. exists 2%nat, 2%nat.
    cbn [Examples.fresh data Examples.five In] in Hr.
    destruct Hr as [<-|[<-|[<-|[<-|[<-|[]]]]]];
      (split; [reflexivity|split; lia]).
  - exists s1, s2. split; [exact Hwide|]. split; [rewrite Hdata; reflexivity|].
    split; [exact Hback|exact Hsame].
Defined.




(** X7.  [unsqueeze_images] can fail only with the error of the reshape,
    and then the data is unchanged: nothing is written back.  It does fail
    as soon as one image has three axes with two or more channels, so it
    cannot be applied to colour images. *)
Theorem unsqueeze_images_fails_without_change (s : state) :
  (forall e s', unsqueeze_images s = (Raise e, s') ->
                e = cannot_reshape /\ data s' = data s) /\
  ((exists r n m channels,
       In r (data s) /\ shape (img_col r) = [n; m; channels] /\
       (1 <= n)%nat /\ (1 <= m)%nat /\ (2 <= channels)%nat) ->
   fst (unsqueeze_images s) = Raise cannot_reshape).
Proof.
  destruct s as [df frac tr te cfg names net c f b g pos fs dev tc].
  unfold unsqueeze_images. run_py.
  set (step := fun r => match _unsqueeze_img (img_col r) with
                        | Ok img => Ok (with_img_col img r)
                        | Raise e => Raise e
                        end).
  assert (Honly : forall r e, step r = Raise e -> e = cannot_reshape).
  { intros r e. unfold step, _unsqueeze_img, reshape.
    destruct (_ =? _)%nat; [discriminate|]. intros H. injection H as <-. reflexivity. }
  split.
  - intros e s'. destruct (traverse step df) as [df'|e'] eqn:E; run_py; [discriminate|].
    intros H. injection H as <- <-. cbn [data]. split; [|reflexivity].
    clear -E Honly. revert e' E. induction df as [|r df IH]; intros e' E; [discriminate|].
    cbn [traverse] in E. destruct (step r) as [b|e1] eqn:E1.
    + destruct (traverse step df) as [bs|e2]; [discriminate|].
      injection E as <-. apply IH. reflexivity.
    + injection E as <-. apply (Honly r _ E1).
  - intros (r & n & m & channels & Hr & Hshape & Hn & Hm & Hc).
    rewrite (traverse_some_raise step cannot_reshape df Honly); [reflexivity|].
    exists r. split; [exact Hr|]. unfold step, _unsqueeze_img, reshape.
    rewrite Hshape. cbn [take app].
    replace (size_of [n; m; 1%nat] =? size_of [n; m; channels])%nat with false;
      [reflexivity|].
    symmetry. apply Nat.eqb_neq. cbn [size_of fold_right]. nia.
Qed.

(** Witness of [unsqueeze_images_fails_without_change]: three colour
    images of shape (2,2,3). *)
Lemma unsqueeze_images_fails_without_change_witness :
  fst (unsqueeze_images (Examples.fresh Examples.small_colour ∅))
  = Raise cannot_reshape /\
  data (snd (unsqueeze_images (Examples.fresh Examples.small_colour ∅)))
  = Examples.small_colour.
Proof.
  destruct (unsqueeze_images_fails_without_change
              (Examples.fresh Examples.small_colour ∅)) as [Honly Hfails].
  assert (Hraise : fst (unsqueeze_images (Examples.fresh Examples.small_colour ∅))
                   = Raise cannot_reshape).
  { apply Hfails. exists (Examples.row "a" [2; 2; 3] 1), 2%nat, 2%nat, 3%nat.
    split; [left; reflexivity|]. split; [reflexivity|]. lia. }
  split; [exact Hraise|].
  destruct (unsqueeze_images (Examples.fresh Examples.small_colour ∅))
    as [o s'] eqn:E.
  cbn [fst snd] in *. subst o.
  destruct (Honly cannot_reshape s' eq_refl) as [_ Hdata]. exact Hdata.
Defined.

(** ** Amplification and its one-shot recovery *)

(** X8.  [amplify_data] calls the amplifier of the dataset once when that
    call succeeds (its result becomes the data) or fails with anything but
    ImageDimensionError (the error propagates, state unchanged).  On
    ImageDimensionError over images with two axes it unsqueezes and calls
    the amplifier exactly once more, on the widened images: on success the
    result is squeezed; if the second call fails, its error propagates,
    also when it is an ImageDimensionError again, and the images are left
    unsqueezed. *)
Theorem amplify_data_recovers_once
        (dataset_amplify_data : list nat -> list Row -> outcome (list Row))
        (mirror_axes : list nat) (s : state) :
  let widened :=
    map (fun r => with_img_col (channel_added (img_col r)) r) (data s) in
  (forall df', dataset_amplify_data mirror_axes (data s) = Ok df' ->
     amplify_data dataset_amplify_data mirror_axes s = (Ok tt, with_data df' s)) /\
  (forall e, dataset_amplify_data mirror_axes (data s) = Raise e ->
     is_ImageDimensionError e = false ->
     amplify_data dataset_amplify_data mirror_axes s = (Raise e, s)) /\
  (forall msg,
     dataset_amplify_data mirror_axes (data s) = Raise (ImageDimensionError msg) ->
     (forall r, In r (data s) -> exists n m, shape (img_col r) = [n; m]) ->
     (forall df', dataset_amplify_data mirror_axes widened = Ok df' ->
        amplify_data dataset_amplify_data mirror_axes s
        = (Ok tt,
           with_data (map (fun r => with_img_col (squeeze (img_col r)) r) df')
             (with_trace (trace s ++ [unsqueeze_log; squeeze_log]) s))) /\
     (forall e, dataset_amplify_data mirror_axes widened = Raise e ->
        amplify_data dataset_amplify_data mirror_axes s
        = (Raise e,
           with_data widened (with_trace (trace s ++ [unsqueeze_log]) s)))).
Proof.
  cbv zeta.
  destruct s as [df frac tr te cfg names net c f b g pos fs dev tc].
  cbn [data trace with_trace with_data].
  unfold amplify_data, CNNModel_amplify_data, unsqueeze_images, squeeze_images.
  split; [|split].
  - intros df' E. run_py. rewrite E. reflexivity.
  - intros e E He. run_py. rewrite E. run_py. rewrite He. reflexivity.
  - intros msg E Hrank. run_py. rewrite E. run_py. cbn [is_ImageDimensionError].
    rewrite (traverse_all_ok _ (fun r => with_img_col (channel_added (img_col r)) r)).
    2:{ intros r Hr. destruct (Hrank r Hr) as (n & m & Hshape).
        destruct (unsqueeze_img_rank2 _ n m Hshape) as (-> & _). reflexivity. }
    run_py. split.
    + intros df' E'. rewrite E'. run_py. rewrite <- app_assoc. reflexivity.
    + intros e E'. rewrite E'. reflexivity.
Qed.

(** Witness of [amplify_data_recovers_once]: five images of shape (2,2)
    and an amplifier that needs a channel axis. *)
Lemma amplify_data_recovers_once_witness :
  exists s',
    amplify_data Examples.needs_channel_axis [1; 2; 3; 4]%nat
      (Examples.fresh Examples.five ∅) = (Ok tt, s') /\
    trace s' = [unsqueeze_log; squeeze_log] /\
    map id_col (data s') = ["a"; "b"; "c"; "d"; "e"; "a"; "b"; "c"; "d"; "e"] /\
    map (fun r => shape (img_col r)) (data s') = repeat [2; 2]%nat 10.
Proof.
  pose proof (amplify_data_recovers_once Examples.needs_channel_axis
                [1; 2; 3; 4]%nat (Examples.fresh Examples.five ∅)) as H.
  cbv zeta in H. destruct H as (_ & _ & Hrecover).
  destruct (Hrecover "image has no channel axis" eq_refl) as [Hok _].
  - intros r Hr. exists 2%nat, 2%nat.
    cbn [Examples.fresh data Examples.five In] in Hr.
    destruct Hr as [<-|[<-|[<-|[<-|[<-|[]]]]]]; reflexivity.
  - eexists. split; [apply Hok; vm_compute; reflexivity|].
    split; [reflexivity|]. split; reflexivity.
Defined.

(** ** The cached split *)

Lemma ensure_with_training_data (rnd : nat -> nat) (s : state) :
  training_data s <> [] -> _ensure_train_imgdata rnd s = (Ok tt, s).
Proof.
  intros Hne. unfold _ensure_train_imgdata. run_monad.
  rewrite (bool_decide_eq_false_2 _ Hne). reflexivity.
Qed.

Lemma train_images_with_training_data (rnd : nat -> nat) (s : state) :
  training_data s <> [] ->
  train_images rnd s = (stack (map img_col (training_data s)), s) /\
  train_labels rnd s = (Ok (map quality_col (training_data s)), s).
Proof.
  intros Hne. unfold train_images, train_labels. rewrite !bind_run.
  rewrite (ensure_with_training_data rnd s Hne). split; reflexivity.
Qed.

Lemma train_images_returns (rnd : nat -> nat) (s s' : state) (a : ndarray) :
  train_images rnd s = (Ok a, s') ->
  training_data s' <> [] /\ stack (map img_col (training_data s')) = Ok a.
Proof.
  unfold train_images. rewrite bind_run.
  destruct (_ensure_train_imgdata rnd s) as [[[]|e] s1]; [|discriminate].
  run_monad. intros H. injection H as H <-. split; [|exact H].
  intros Hnil. rewrite Hnil in H. discriminate H.
Qed.

(** X9.  After [train_images] has returned, the split is cached: further
    reads of [train_images], [test_images], [train_labels] and
    [test_labels] return without changing the state (no new split, no draw
    from the random stream, no log line); the image views return the same
    array again and the label views the scores of the cached training
    rows. *)
Theorem train_images_reads_the_split_once (rnd : nat -> nat) (s s' : state)
        (images : ndarray) :
  train_images rnd s = (Ok images, s') ->
  train_images rnd s' = (Ok images, s') /\
  test_images rnd s' = (Ok images, s') /\
  train_labels rnd s' = (Ok (map quality_col (training_data s')), s') /\
  test_labels rnd s' = (Ok (map quality_col (training_data s')), s').
Proof.
  intros Hrun. destruct (train_images_returns rnd s s' images Hrun) as [Hne Hstack].
  destruct (train_images_with_training_data rnd s' Hne) as [Himg Hlbl].
  rewrite Hstack in Himg. repeat split; assumption.
Qed.

(** Witness of [train_images_reads_the_split_once]: four images, read
    twice. *)
Lemma train_images_reads_the_split_once_witness :
  exists images s',
    train_images Examples.rnd (Examples.fresh Examples.scored ∅)
    = (Ok images, s') /\
    train_images Examples.rnd s' = (Ok images, s') /\
    test_images Examples.rnd s' = (Ok images, s').
Proof.
  destruct (train_images Examples.rnd (Examples.fresh Examples.scored ∅))
    as [[images|e] s'] eqn:E.
  - exists images, s'. split; [reflexivity|].
    destruct (train_images_reads_the_split_once Examples.rnd _ s' images E)
      as (Htrain & Htest & _).
    split; [exact Htrain|exact Htest].
  - vm_compute in E. discriminate E.
Defined.

(** X10.  None of the six operations that change the image data
    (grayscale and binary conversion, squeeze, unsqueeze, amplify, filter)
    touches the cached training and test parts, whether it returns or
    raises.  So once a split exists, [train_images] and [train_labels]
    return after the operation exactly what they returned before it: a
    data mutation does not invalidate the cached views. *)
Theorem mutators_leave_the_split_stale
        (rgb_to_grayscale grayscale_to_binary : ndarray -> ndarray)
        (dataset_amplify_data : list nat -> list Row -> outcome (list Row))
        (dataset_filter : string -> list Row -> outcome (list Row))
        (rnd : nat -> nat) (mirror_axes : list nat) (query : string)
        (mutator : M state unit) :
  In mutator
     [images_to_grayscale_nonreversible rgb_to_grayscale;
      images_to_binary rgb_to_grayscale grayscale_to_binary;
      squeeze_images; unsqueeze_images;
      amplify_data dataset_amplify_data mirror_axes;
      filter_ dataset_filter query] ->
  forall s,
    training_data (snd (mutator s)) = training_data s /\
    test_data (snd (mutator s)) = test_data s /\
    (training_data s <> [] ->
     fst (train_images rnd (snd (mutator s))) = fst (train_images rnd s) /\
     fst (train_labels rnd (snd (mutator s))) = fst (train_labels rnd s)).
Proof.
  intros Hin.
  assert (Htr : keeps training_data mutator).
  { cbn [In] in Hin.
    destruct Hin as [<-|[<-|[<-|[<-|[<-|[<-|[]]]]]]]; effects. }
  assert (Hte : keeps test_data mutator).
  { cbn [In] in Hin.
    destruct Hin as [<-|[<-|[<-|[<-|[<-|[<-|[]]]]]]]; effects. }
  intros s. split; [apply Htr|]. split; [apply Hte|].
  intros Hne.
  assert (Hne' : training_data (snd (mutator s)) <> []) by (rewrite Htr; exact Hne).
  destruct (train_images_with_training_data rnd s Hne) as [-> ->].
  destruct (train_images_with_training_data rnd _ Hne') as [-> ->].
  cbn [fst]. rewrite Htr. split; reflexivity.
Qed.

(** Witness of [mutators_leave_the_split_stale]: three colour images are
    split and then converted to grayscale. *)
Lemma mutators_leave_the_split_stale_witness :
  let s := snd (init_training_and_test_sets Examples.rnd
                  (Examples.fresh Examples.small_colour ∅)) in
  let s' := snd (images_to_grayscale_nonreversible Examples.to_gray s) in
  training_data s <> [] /\
  map (fun r => shape (img_col r)) (data s') = repeat [2; 2]%nat 3 /\
  fst (train_images Examples.rnd s') = fst (train_images Examples.rnd s).
Proof.
  cbv zeta.
  assert (Hsplit : training_data
                     (snd (init_training_and_test_sets Examples.rnd
                             (Examples.fresh Examples.small_colour ∅))) <> [])
    by (vm_compute; discriminate).
  split; [exact Hsplit|]. split; [vm_compute; reflexivity|].
  destruct (mutators_leave_the_split_stale Examples.to_gray Examples.to_binary
              Examples.no_amplification (fun _ df => Ok df) Examples.rnd
              [] "" (images_to_grayscale_nonreversible Examples.to_gray)
              (or_introl eq_refl)
              (snd (init_training_and_test_sets Examples.rnd
                      (Examples.fresh Examples.small_colour ∅))))
    as (_ & _ & Hstale).
  destruct (Hstale Hsplit) as [Himages _]. exact Himages.
Defined.

(** ** Fit and evaluate *)

Ltac step_ok H a s1 E :=
  rewrite bind_run in H;
  match type of H with
  | match ?m ?s with _ => _ end = _ =>
      destruct (m s) as [[a|?] s1] eqn:E; [|discriminate H]
  end.





(** ** The orchestration: validation and the plotting error *)

Lemma types_not_single (col : list string) :
  col = [] \/ (exists a b, In a col /\ In b col /\ a <> b) ->
  (size (list_to_set col : gset string) =? 1)%nat = false.
Proof.
  intros H. apply Nat.eqb_neq. intros Hsize.
  apply size_1_elem_of in Hsize as (x & Hx).
  destruct H as [->|(a & b & Ha & Hb & Hab)].
  - assert (x ∈ (list_to_set [] : gset string)) as Hin
        by (rewrite Hx; apply elem_of_singleton; reflexivity).
    rewrite list_to_set_nil in Hin. apply not_elem_of_empty in Hin. exact Hin.
  - apply Hab.
    assert (a ∈ (list_to_set col : gset string)) as Ha'
        by (apply elem_of_list_to_set, list_elem_of_In; exact Ha).
    assert (b ∈ (list_to_set col : gset string)) as Hb'
        by (apply elem_of_list_to_set, list_elem_of_In; exact Hb).
    rewrite Hx in Ha', Hb'. apply elem_of_singleton in Ha', Hb'. congruence.
Qed.

(** X12.  When the type column of the labels of the dataset is empty or
    holds two different values, [full_run_from_dataset] raises the
    ValueError for multiple types before anything else happens: no log
    line and no library call, no file touched, no draw from the random
    stream, no colour conversion and no network; only the model has been
    constructed over the dataset. *)
Theorem full_run_rejects_mixed_types
        (GPU_AVAILABLE : bool) (DEFAULT_GPU DEFAULT_ELPV_MODELPATH : string)
        (rgb_to_grayscale grayscale_to_binary : ndarray -> ndarray)
        (dataset_amplify_data : list nat -> list Row -> outcome (list Row))
        (rnd : nat -> nat)
        (runtime_error : tf_device -> event -> option exn)
        (keras_evaluate : list event -> Q * Q)
        (keras_predict : list event -> TensorFlowPredictions)
        (default_config : CNNModelConfig.t) (dataset : ImageDataSetELPV)
        (tolerance : option Q) (amplify : bool) (model_savepath : string)
        (force_retrain : bool) (s : state) :
  ds_labels_type_col dataset = [] \/
  (exists a b, In a (ds_labels_type_col dataset) /\
               In b (ds_labels_type_col dataset) /\ a <> b) ->
  exists s',
    full_run_from_dataset GPU_AVAILABLE DEFAULT_GPU DEFAULT_ELPV_MODELPATH
      rgb_to_grayscale grayscale_to_binary dataset_amplify_data rnd
      runtime_error keras_evaluate keras_predict default_config dataset
      tolerance amplify model_savepath force_retrain s
    = (Raise mixed_types, s') /\
    trace s' = trace s /\ files s' = files s /\ random_pos s' = random_pos s /\
    data s' = ds_data dataset /\
    _grayscale s' = false /\ _binary_colors s' = false /\ _model s' = None.
Proof.
  intros Htypes. unfold full_run_from_dataset. cbv zeta.
  rewrite bind_run. unfold CNNModel_init at 1, modify at 1.
  rewrite bind_run. rewrite (types_not_single _ Htypes). cbn [negb when].
  unfold raise at 1. eexists. split; [reflexivity|].
  repeat split.
Qed.

(** Witness of [full_run_rejects_mixed_types]: labels with the types
    poly and mono. *)
Lemma full_run_rejects_mixed_types_witness :
  fst (full_run_from_dataset false "gpu:0" Examples.weights_file
      Examples.to_gray Examples.to_binary Examples.no_amplification
      Examples.rnd Examples.healthy Examples.evaluation_result
      Examples.prediction_result (CNNModelConfig.default false)
      Examples.two_types None false Examples.weights_file false
      (Examples.fresh [] ∅))
  = Raise mixed_types.
Proof.
  destruct (full_run_rejects_mixed_types false "gpu:0" Examples.weights_file
              Examples.to_gray Examples.to_binary Examples.no_amplification
              Examples.rnd Examples.healthy Examples.evaluation_result
              Examples.prediction_result (CNNModelConfig.default false)
              Examples.two_types None false Examples.weights_file false
              (Examples.fresh [] ∅))
    as (s' & Hrun & _).
  - right. exists "poly", "mono".
    split; [left; reflexivity|]. split; [right; left; reflexivity|discriminate].
  - rewrite Hrun. reflexivity.
Defined.






(** ** The size of the training part *)






(** ** The state flags only go up *)

Section NeverClears.
Context (flag : state -> bool).

Lemma never_clears_ret {A} (a : A) : never_clears flag (ret a).
Proof. intros s H. exact H. Qed.

Lemma never_clears_raise {A} (e : exn) : never_clears flag (@raise state A e).
Proof. intros s H. exact H. Qed.

Lemma never_clears_gets {A} (g : state -> A) : never_clears flag (gets g).
Proof. intros s H. exact H. Qed.

Lemma never_clears_lift {A} (o : outcome A) : never_clears flag (lift o).
Proof. intros s H. exact H. Qed.

Lemma never_clears_modify (g : state -> state) :
  (forall s, flag s = true -> flag (g s) = true) -> never_clears flag (modify g).
Proof. intros Hg s H. apply Hg, H. Qed.

Lemma never_clears_call rt (e : event) :
  (forall t s, flag (with_trace t s) = flag s) -> never_clears flag (call rt e).
Proof.
  intros Ht s H. unfold call. destruct (rt (device s) e); cbn [snd]; [exact H|].
  rewrite Ht. exact H.
Qed.

Lemma never_clears_bind {A B} (m : M state A) (k : A -> M state B) :
  never_clears flag m -> (forall a, never_clears flag (k a)) ->
  never_clears flag (bind m k).
Proof.
  intros Hm Hk s H. rewrite bind_run. specialize (Hm s H).
  destruct (m s) as [[a|e] s1]; cbn [snd] in *; [apply Hk, Hm|exact Hm].
Qed.

Lemma never_clears_when (c : bool) (body : M state unit) :
  never_clears flag body -> never_clears flag (when c body).
Proof. intros H. destruct c; [exact H|apply never_clears_ret]. Qed.

Lemma never_clears_try_except {A} (body : M state A) handles
      (handler : exn -> M state A) :
  never_clears flag body -> (forall e, never_clears flag (handler e)) ->
  never_clears flag (try_except body handles handler).
Proof.
  intros Hm Hk s H. unfold try_except. specialize (Hm s H).
  destruct (body s) as [[a|e] s1]; cbn [snd] in *; [exact Hm|].
  destruct (handles e); [apply Hk, Hm|exact Hm].
Qed.

End NeverClears.

Ltac flags :=
  repeat first
    [ apply never_clears_ret | apply never_clears_raise | apply never_clears_gets
    | apply never_clears_lift
    | apply never_clears_bind; [|intros ?] | apply never_clears_when
    | apply never_clears_try_except; [|intros ?]
    | apply never_clears_call; intros ? []; reflexivity
    | apply never_clears_modify; intros [] ?; first [reflexivity|assumption]
    | match goal with
      | |- never_clears _ (match ?x with _ => _ end) => destruct x
      | |- never_clears _ (let _ := _ in _) => cbv zeta
      end ].

(** X16.  Each of the four state flags (grayscale, binary, compiled,
    fitted), once set, is still set after a call of any of the twenty
    methods of a model, whether the call returns or raises: no method
    clears a flag. *)
Theorem flags_are_never_cleared
        (rgb_to_grayscale grayscale_to_binary : ndarray -> ndarray)
        (dataset_amplify_data : list nat -> list Row -> outcome (list Row))
        (dataset_filter : string -> list Row -> outcome (list Row))
        (rnd : nat -> nat)
        (runtime_error : tf_device -> event -> option exn)
        (keras_evaluate : list event -> Q * Q)
        (keras_predict : list event -> TensorFlowPredictions)
        (mirror_axes : list nat) (query path : string)
        (tolerance : option Q) (predicted : TensorFlowPredictions)
        (flag : state -> bool) (method : state -> state) :
  In flag [_grayscale; _binary_colors; _compiled; _fitted] ->
  In method
     [after (images_to_grayscale_nonreversible rgb_to_grayscale);
      after (images_to_binary rgb_to_grayscale grayscale_to_binary);
      after squeeze_images; after unsqueeze_images;
      after (amplify_data dataset_amplify_data mirror_axes);
      after (filter_ dataset_filter query);
      after (init_training_and_test_sets rnd);
      after (get_train_data_by_label rnd tolerance);
      after (get_test_data_by_label rnd tolerance);
      after (train_images rnd); after (train_labels rnd);
      after (test_images rnd); after (test_labels rnd);
      after image_shape;
      after (load runtime_error path);
      after (build runtime_error);
      after (_compile runtime_error);
      after (_fit rnd runtime_error);
      after (evaluate rnd runtime_error keras_evaluate keras_predict);
      after (plot rnd runtime_error predicted)] ->
  forall s, flag s = true -> flag (method s) = true.
Proof.
  intros Hflag Hmethod. unfold after in Hmethod.
  cbn [In] in Hflag.
  destruct Hflag as [<-|[<-|[<-|[<-|[]]]]];
    cbn [In] in Hmethod;
    repeat (destruct Hmethod as [<-|Hmethod];
            [match goal with
             | |- forall s, ?f s = true -> ?f (snd (?m s)) = true =>
                 change (never_clears f m); flags
             end|]);
    destruct Hmethod.
Qed.

(** Witness of [flags_are_never_cleared]: [build] on a compiled model
    replaces the network and leaves the compiled flag set. *)
Lemma flags_are_never_cleared_witness :
  let s := with__compiled true (Examples.fresh Examples.five ∅) in
  _compiled (after (build Examples.healthy) s) = true /\
  _model (after (build Examples.healthy) s) <> _model s.
Proof.
  cbv zeta. split; [|vm_compute; discriminate].
  apply (flags_are_never_cleared Examples.to_gray Examples.to_binary
           Examples.no_amplification (fun _ df => Ok df) Examples.rnd
           Examples.healthy Examples.evaluation_result
           Examples.prediction_result [] "" "" None []
           _compiled (after (build Examples.healthy))).
  - right. right. left. reflexivity.
  - do 15 right. left. reflexivity.
  - reflexivity.
Defined.

(** ** More on the label groups *)

Lemma filter_three_way {A} (f g h : A -> bool) (l : list A) :
  (forall a, In a l ->
             (f a = true /\ g a = false /\ h a = false) \/
             (f a = false /\ g a = true /\ h a = false) \/
             (f a = false /\ g a = false /\ h a = true)) ->
  (length (List.filter f l) + length (List.filter g l) + length (List.filter h l)
   = length l)%nat.
Proof.
  induction l as [|a l IH]; intros H; [reflexivity|].
  cbn [List.filter]. specialize (IH (fun x Hx => H x (or_intror Hx))).
  destruct (H a (or_introl eq_refl)) as [(-> & -> & ->)|[(-> & -> & ->)|(-> & -> & ->)]];
    cbn [length]; lia.
Qed.

Lemma filter_length_mono {A} (f g : A -> bool) (l : list A) :
  (forall a, In a l -> f a = true -> g a = true) ->
  (length (List.filter f l) <= length (List.filter g l))%nat.
Proof.
  induction l as [|a l IH]; intros H; [reflexivity|].
  cbn [List.filter]. specialize (IH (fun x Hx => H x (or_intror Hx))).
  destruct (f a) eqn:Ef.
  - rewrite (H a (or_introl eq_refl) Ef). cbn [length]. lia.
  - destruct (g a); cbn [length]; lia.
Qed.

Lemma isclose_zero_bool (q t : Q) :
  isclose q 0 rtol_default t = Qle_bool (Qabs q) t.
Proof.
  apply Bool.eq_iff_eq_true. rewrite isclose_zero_iff, Qle_bool_iff. reflexivity.
Qed.

(** X17.  Whenever [get_train_data_by_label] returns: for a tolerance of
    at most 0.98 every pass image is also a review image (the review group
    has no upper bound), so the pass group is never larger than the review
    group; and for a tolerance of at most 0.01 the review group, the fail
    group and the rows whose score is at most 0.01 but further than the
    tolerance from 0 count up to the whole collection, so a row of the
    last kind is in neither group. *)
Theorem label_groups_overlap_and_gap (rnd : nat -> nat) (tolerance : option Q)
        (s s' : state) (groups : DataByLabelsELPV ndarray) :
  get_train_data_by_label rnd tolerance s = (Ok groups, s') ->
  let t := match tolerance with None => (1 # 100000000)%Q | Some t => t end in
  ((t <= 98 # 100)%Q ->
   (forall img, In img (pass_ groups) -> In img (review groups)) /\
   (length (pass_ groups) <= length (review groups))%nat) /\
  ((t <= 1 # 100)%Q ->
   (length (review groups) + length (fail groups)
    + length (List.filter
                (fun r => Qle_bool (quality_col r) (1 # 100)
                          && negb (Qle_bool (Qabs (quality_col r)) t))
                (data s))
    = length (data s))%nat).
Proof.
  intros Hrun t.
  apply get_train_data_by_label_returns in Hrun.
  change FLOAT_COMP_TOL with (1 # 100000000)%Q in Hrun. fold t in Hrun. subst groups.
  unfold by_label. cbn [pass_ review fail]. rewrite !length_map.
  assert (Hpr : (t <= 98 # 100)%Q -> forall r,
             isclose (quality_col r) 1 rtol_default t = true ->
             negb (Qle_bool (quality_col r) (1 # 100)) = true).
  { intros Ht r Hclose. apply isclose_iff in Hclose.
    apply Qabs_Qle_condition in Hclose as [Hlo _].
    change (Qabs 1) with 1%Q in Hlo.
    apply negb_true_iff, not_true_iff_false. rewrite Qle_bool_iff. lra. }
  split.
  - intros Ht. split.
    + intros img Hin. apply in_group in Hin as (r & Hr & E & Hk).
      apply in_group. exists r. auto.
    + apply filter_length_mono. intros r _. apply Hpr, Ht.
  - intros Ht. apply filter_three_way. intros r _.
    rewrite isclose_zero_bool.
    destruct (Qle_bool (quality_col r) (1 # 100)) eqn:Eq,
             (Qle_bool (Qabs (quality_col r)) t) eqn:Ea; cbn [negb andb]; auto.
    exfalso. apply Qle_bool_iff in Ea. apply not_true_iff_false in Eq.
    apply Eq, Qle_bool_iff. pose proof (Qle_Qabs (quality_col r)). lra.
Qed.

(** Witness of [label_groups_overlap_and_gap]: scores 1, 0, 1/2 and
    1/200 at the default tolerance; the last one is in no group. *)
Lemma label_groups_overlap_and_gap_witness :
  exists groups s',
    get_train_data_by_label Examples.rnd None (Examples.fresh Examples.graded ∅)
    = (Ok groups, s') /\
    (forall img, In img (pass_ groups) -> In img (review groups)) /\
    (length (review groups) + length (fail groups) + 1 = 4)%nat.
Proof.
  destruct (get_train_data_by_label Examples.rnd None
              (Examples.fresh Examples.graded ∅)) as [[groups|e] s'] eqn:E.
  - exists groups, s'. split; [reflexivity|].
    pose proof (label_groups_overlap_and_gap Examples.rnd None _ s' groups E) as H.
    cbv zeta in H. destruct H as [Hoverlap Hgap].
    split.
    + apply Hoverlap. unfold Qle. cbn. lia.
    + apply Hgap. unfold Qle. cbn. lia.
  - vm_compute in E. discriminate E.
Defined.

Lemma get_test_data_by_label_returns (rnd : nat -> nat) (tolerance : option Q)
      (s s' : state) (groups : DataByLabelsELPV Q) :
  get_test_data_by_label rnd tolerance s = (Ok groups, s') ->
  groups = by_label quality_col
             (match tolerance with None => FLOAT_COMP_TOL | Some t => t end)
             (data s).
Proof.
  unfold get_test_data_by_label. cbv zeta. rewrite bind_run.
  assert (Hkeep : keeps data (_ensure_train_imgdata rnd)) by effects.
  specialize (Hkeep s).
  destruct (_ensure_train_imgdata rnd s) as [[[]|e] s1]; [|discriminate].
  cbn [snd] in Hkeep. run_monad. rewrite Hkeep.
  intros H. injection H as <- _. reflexivity.
Qed.

(** X18.  [get_test_data_by_label] leaves the same state as
    [get_train_data_by_label] and returns, group for group, the scores of
    the very rows whose images the latter returns; these are rows of the
    whole collection, not of the test part.  Every pass score is within
    the tolerance plus the relative term 1e-5 of numpy of 1.0, every
    review score is above 0.01, and every fail score is within the
    tolerance of 0.0. *)
Theorem test_labels_by_group_mirror_the_whole_collection
        (rnd : nat -> nat) (tolerance : option Q) (s s1 s2 : state)
        (images : DataByLabelsELPV ndarray) (scores : DataByLabelsELPV Q) :
  get_train_data_by_label rnd tolerance s = (Ok images, s1) ->
  get_test_data_by_label rnd tolerance s = (Ok scores, s2) ->
  let t := match tolerance with None => (1 # 100000000)%Q | Some t => t end in
  s2 = s1 /\
  (exists passing reviewed failing,
      pass_ images = map img_col passing /\ pass_ scores = map quality_col passing /\
      review images = map img_col reviewed /\ review scores = map quality_col reviewed /\
      fail images = map img_col failing /\ fail scores = map quality_col failing /\
      (forall r, In r passing \/ In r reviewed \/ In r failing -> In r (data s))) /\
  (forall q, In q (pass_ scores) -> (Qabs (q - 1) <= t + (1 # 100000))%Q) /\
  (forall q, In q (review scores) -> (1 # 100 < q)%Q) /\
  (forall q, In q (fail scores) -> (Qabs q <= t)%Q).
Proof.
  intros Himg Hsc t.
  assert (Hs : s2 = s1).
  { unfold get_train_data_by_label, get_test_data_by_label in Himg, Hsc.
    cbv zeta in Himg, Hsc. rewrite bind_run in Himg. rewrite bind_run in Hsc.
    destruct (_ensure_train_imgdata rnd s) as [[[]|e] s0]; [|discriminate Himg].
    run_monad. injection Himg as _ <-. injection Hsc as _ <-. reflexivity. }
  apply get_train_data_by_label_returns in Himg.
  apply get_test_data_by_label_returns in Hsc.
  change FLOAT_COMP_TOL with (1 # 100000000)%Q in Himg, Hsc. fold t in Himg, Hsc.
  subst images scores. unfold by_label. cbn [pass_ review fail].
  split; [exact Hs|]. split; [|split; [|split]].
  - eexists. eexists. eexists. repeat split; try reflexivity.
    intros r [Hr|[Hr|Hr]]; apply filter_In in Hr; tauto.
  - intros q Hq. apply in_group in Hq as (r & _ & <- & Hk).
    apply isclose_iff in Hk. change (Qabs 1) with 1%Q in Hk. lra.
  - intros q Hq. apply in_group in Hq as (r & _ & <- & Hk).
    apply negb_true_iff, not_true_iff_false in Hk. rewrite Qle_bool_iff in Hk.
    apply Qnot_le_lt, Hk.
  - intros q Hq. apply in_group in Hq as (r & _ & <- & Hk).
    apply isclose_zero_iff, Hk.
Qed.

(** Witness of [test_labels_by_group_mirror_the_whole_collection]: the
    two accessors on scores 1, 0, 1/2 and 1/3. *)
Lemma test_labels_by_group_mirror_the_whole_collection_witness :
  exists images scores s',
    get_train_data_by_label Examples.rnd None (Examples.fresh Examples.scored ∅)
    = (Ok images, s') /\
    get_test_data_by_label Examples.rnd None (Examples.fresh Examples.scored ∅)
    = (Ok scores, s') /\
    (forall q, In q (review scores) -> (1 # 100 < q)%Q) /\
    (forall q, In q (fail scores) -> (Qabs q <= 1 # 100000000)%Q).
Proof.
  destruct (get_train_data_by_label Examples.rnd None
              (Examples.fresh Examples.scored ∅)) as [[images|e] s1] eqn:E1;
    [|vm_compute in E1; discriminate E1].
  destruct (get_test_data_by_label Examples.rnd None
              (Examples.fresh Examples.scored ∅)) as [[scores|e] s2] eqn:E2;
    [|vm_compute in E2; discriminate E2].
  pose proof (test_labels_by_group_mirror_the_whole_collection Examples.rnd None
                _ s1 s2 images scores E1 E2) as H.
  cbv zeta in H. destruct H as (-> & _ & _ & Hreview & Hfail).
  exists images, scores, s1. split; [reflexivity|]. split; [reflexivity|].
  split; [exact Hreview|exact Hfail].
Defined.

(** ** The device fallback *)

Section NoInternalError.

Lemma no_internal_ret {A} (a : A) : no_internal_error (@ret state A a).
Proof. intros s e H. discriminate H. Qed.

Lemma no_internal_gets {A} (g : state -> A) : no_internal_error (gets g).
Proof. intros s e H. discriminate H. Qed.

Lemma no_internal_modify (g : state -> state) : no_internal_error (modify g).
Proof. intros s e H. discriminate H. Qed.

Lemma no_internal_raise {A} (e : exn) :
  is_InternalError e = false -> no_internal_error (@raise state A e).
Proof. intros He s e' H. injection H as <-. exact He. Qed.

Lemma no_internal_lift {A} (o : outcome A) :
  (forall e, o = Raise e -> is_InternalError e = false) ->
  no_internal_error (@lift state A o).
Proof. intros Ho s e H. apply Ho, H. Qed.

Lemma no_internal_call rt (ev : event) :
  (forall d e err, rt d e = Some err -> is_InternalError err = false) ->
  no_internal_error (call rt ev).
Proof.
  intros Hrt s e. unfold call. destruct (rt (device s) ev) as [err|] eqn:E.
  - intros H. injection H as <-. apply (Hrt _ _ _ E).
  - discriminate.
Qed.

Lemma no_internal_bind {A B} (m : M state A) (k : A -> M state B) :
  no_internal_error m -> (forall a, no_internal_error (k a)) ->
  no_internal_error (bind m k).
Proof.
  intros Hm Hk s e. rewrite bind_run. specialize (Hm s).
  destruct (m s) as [[a|e'] s1]; cbn [fst] in *; [apply Hk|].
  intros H. injection H as <-. apply Hm. reflexivity.
Qed.

Lemma no_internal_when (c : bool) (body : M state unit) :
  no_internal_error body -> no_internal_error (when c body).
Proof. intros H. destruct c; [exact H|apply no_internal_ret]. Qed.

Lemma no_internal_with_tf_device {A} (name : string) (body : M state A) :
  no_internal_error body -> no_internal_error (with_tf_device name body).
Proof.
  intros Hm s e. unfold with_tf_device. specialize (Hm (with_device (Device name) s)).
  destruct (body _) as [o s1]; cbn [fst] in *. apply Hm.
Qed.

End NoInternalError.

Lemma stack_raises (l : list ndarray) (e : exn) :
  stack l = Raise e -> is_InternalError e = false.
Proof.
  unfold stack. destruct l as [|a l]; [intros H; injection H as <-; reflexivity|].
  destruct (forallb _ _); [discriminate|]. intros H. injection H as <-. reflexivity.
Qed.

Lemma index_raises {A} (l : list A) (i : nat) (e : exn) :
  index l i = Raise e -> is_InternalError e = false.
Proof.
  unfold index. destruct (l !! i); [discriminate|].
  intros H. injection H as <-. reflexivity.
Qed.

Lemma ImageShape_new_raises (args : list nat) (e : exn) :
  ImageShape_new args = Raise e -> is_InternalError e = false.
Proof.
  destruct args as [|a [|b [|c args]]]; cbn [ImageShape_new]; intros H;
    try discriminate H; injection H as <-; reflexivity.
Qed.

Lemma sample_raises {R} (rnd : nat -> nat) (pos : nat) (frac : Q) (df : list R)
      (e : exn) :
  Pd.sample rnd pos frac df = Raise e -> is_InternalError e = false.
Proof.
  unfold Pd.sample. destruct (negb _); [intros H; injection H as <-; reflexivity|].
  destruct (negb _); [intros H; injection H as <-; reflexivity|discriminate].
Qed.

Ltac internal :=
  repeat first
    [ apply no_internal_ret | apply no_internal_gets | apply no_internal_modify
    | apply no_internal_raise; reflexivity
    | apply no_internal_lift; intros ?;
      first [apply stack_raises | apply index_raises | apply ImageShape_new_raises
            | apply sample_raises]
    | apply no_internal_call; assumption
    | apply no_internal_bind; [|intros ?] | apply no_internal_when
    | apply no_internal_with_tf_device
    | match goal with
      | |- no_internal_error (match ?x with _ => _ end) => destruct x
      | |- no_internal_error (let _ := _ in _) => cbv zeta
      end ].

Lemma attempt_raises_no_internal_error (rnd : nat -> nat)
      (runtime_error : tf_device -> event -> option exn)
      (keras_evaluate : list event -> Q * Q)
      (keras_predict : list event -> TensorFlowPredictions) (name : string) :
  (forall d e err, runtime_error d e = Some err -> is_InternalError err = false) ->
  no_internal_error
    (with_tf_device name
       (bind (build runtime_error)
             (fun _ => evaluate rnd runtime_error keras_evaluate keras_predict))).
Proof. intros Hrt. unfold emit. internal. Qed.

Lemma appends_unhandled {A} (P : event -> Prop) (body : M state A)
      (handler : exn -> M state A) :
  no_internal_error body -> appends P body ->
  appends P (try_except body is_InternalError handler).
Proof.
  intros Hno Hbody s. unfold try_except. specialize (Hno s).
  destruct (Hbody s) as (n & E & F).
  destruct (body s) as [[a|e] s1]; cbn [fst snd] in *.
  - exists n. auto.
  - rewrite (Hno e eq_refl). exists n. auto.
Qed.

Section Pauses.

Lemma pauses_of_appends {A} (m : M state A) :
  appends (fun e => is_sleep e = false) m -> pauses_at_most 0 m.
Proof.
  intros Hm s. destruct (Hm s) as (n & E & F). exists n. split; [exact E|].
  rewrite filter_none; [reflexivity|]. apply List.Forall_forall. exact F.
Qed.

Lemma pauses_weaken {A} (n n' : nat) (m : M state A) :
  (n <= n')%nat -> pauses_at_most n m -> pauses_at_most n' m.
Proof.
  intros Hle Hm s. destruct (Hm s) as (new & E & L). exists new. split; [exact E|lia].
Qed.

Lemma pauses_bind {A B} (n1 n2 : nat) (m : M state A) (k : A -> M state B) :
  pauses_at_most n1 m -> (forall a, pauses_at_most n2 (k a)) ->
  pauses_at_most (n1 + n2) (bind m k).
Proof.
  intros Hm Hk s. rewrite bind_run. destruct (Hm s) as (new1 & E1 & L1).
  destruct (m s) as [[a|e] s1]; cbn [snd] in E1.
  - destruct (Hk a s1) as (new2 & E2 & L2). exists (new1 ++ new2).
    split; [rewrite E2, E1, app_assoc; reflexivity|].
    rewrite List.filter_app, length_app. lia.
  - exists new1. split; [exact E1|lia].
Qed.

Lemma pauses_try_except {A} (n1 n2 : nat) (body : M state A) handles
      (handler : exn -> M state A) :
  pauses_at_most n1 body -> (forall e, pauses_at_most n2 (handler e)) ->
  pauses_at_most (n1 + n2) (try_except body handles handler).
Proof.
  intros Hm Hk s. unfold try_except. destruct (Hm s) as (new1 & E1 & L1).
  destruct (body s) as [[a|e] s1]; cbn [snd] in E1.
  - exists new1. split; [exact E1|lia].
  - destruct (handles e).
    + destruct (Hk e s1) as (new2 & E2 & L2). exists (new1 ++ new2).
      split; [rewrite E2, E1, app_assoc; reflexivity|].
      rewrite List.filter_app, length_app. lia.
    + exists new1. split; [exact E1|lia].
Qed.

Lemma pauses_emit (e : event) : pauses_at_most 1 (emit e).
Proof.
  intros s. exists [e]. split; [destruct s; reflexivity|].
  cbn [List.filter]. destruct (is_sleep e); cbn [length]; lia.
Qed.

End Pauses.

(** X14.  Every run of [full_run_from_dataset] only appends to the trace
    and pauses at most once, for one second: the fallback to the CPU is
    taken at most once per run.  No pause happens when no GPU is
    available, and none when the runtime raises no InternalError: any
    other failure of the attempt on the GPU propagates without a second
    attempt. *)
Theorem full_run_falls_back_at_most_once
        (GPU_AVAILABLE : bool) (DEFAULT_GPU DEFAULT_ELPV_MODELPATH : string)
        (rgb_to_grayscale grayscale_to_binary : ndarray -> ndarray)
        (dataset_amplify_data : list nat -> list Row -> outcome (list Row))
        (rnd : nat -> nat)
        (runtime_error : tf_device -> event -> option exn)
        (keras_evaluate : list event -> Q * Q)
        (keras_predict : list event -> TensorFlowPredictions)
        (default_config : CNNModelConfig.t) (dataset : ImageDataSetELPV)
        (tolerance : option Q) (amplify : bool) (model_savepath : string)
        (force_retrain : bool) (s : state) :
  exists new,
    trace (snd (full_run_from_dataset GPU_AVAILABLE DEFAULT_GPU
                  DEFAULT_ELPV_MODELPATH rgb_to_grayscale grayscale_to_binary
                  dataset_amplify_data rnd runtime_error keras_evaluate
                  keras_predict default_config dataset tolerance amplify
                  model_savepath force_retrain s))
    = trace s ++ new /\
    (length (List.filter is_sleep new) <= 1)%nat /\
    Forall (fun e => pause_of_one_second e = true) new /\
    (GPU_AVAILABLE = false -> Forall (fun e => is_sleep e = false) new) /\
    ((forall d e err, runtime_error d e = Some err -> is_InternalError err = false) ->
     Forall (fun e => is_sleep e = false) new).
Proof.
  set (run := full_run_from_dataset GPU_AVAILABLE DEFAULT_GPU
                DEFAULT_ELPV_MODELPATH rgb_to_grayscale grayscale_to_binary
                dataset_amplify_data rnd runtime_error keras_evaluate
                keras_predict default_config dataset tolerance amplify
                model_savepath force_retrain).
  assert (Hcount : pauses_at_most 1 run).
  { subst run. unfold full_run_from_dataset. cbv zeta.
    apply (pauses_bind 0 1); [apply pauses_of_appends; unfold CNNModel_init; effects|intros _].
    apply (pauses_bind 0 1); [apply pauses_of_appends; effects|intros _].
    apply (pauses_bind 0 1); [apply pauses_of_appends; effects|intros mode].
    apply (pauses_bind 0 1); [apply pauses_of_appends; destruct mode; effects|intros _].
    apply (pauses_bind 0 1); [apply pauses_of_appends; effects|intros _].
    apply (pauses_bind 0 1); [apply pauses_of_appends; effects|intros present].
    apply (pauses_bind 1 0); [|intros evaluation; apply pauses_of_appends; effects].
    destruct (present && negb force_retrain);
      [apply (pauses_weaken 0); [lia|]; apply pauses_of_appends; effects|].
    destruct GPU_AVAILABLE;
      [|apply (pauses_weaken 0); [lia|]; apply pauses_of_appends; effects].
    apply (pauses_try_except 0 1); [apply pauses_of_appends; effects|intros e].
    apply (pauses_bind 0 1); [apply pauses_of_appends; effects|intros _].
    apply (pauses_bind 1 0); [apply pauses_emit|intros _].
    apply pauses_of_appends. effects. }
  assert (Hsecond : appends (fun e => pause_of_one_second e = true) run)
    by (subst run; unfold CNNModel_init; effects).
  assert (Hcpu : GPU_AVAILABLE = false -> appends (fun e => is_sleep e = false) run)
    by (intros ->; subst run; unfold CNNModel_init; effects).
  assert (Hrt : (forall d e err, runtime_error d e = Some err ->
                                 is_InternalError err = false) ->
                appends (fun e => is_sleep e = false) run).
  { intros Hno. subst run. unfold full_run_from_dataset. cbv zeta.
    apply appends_bind; [unfold CNNModel_init; effects|intros _].
    apply appends_bind; [effects|intros _].
    apply appends_bind; [effects|intros mode].
    apply appends_bind; [destruct mode; effects|intros _].
    apply appends_bind; [effects|intros _].
    apply appends_bind; [effects|intros present].
    apply appends_bind; [|intros evaluation; effects].
    destruct (present && negb force_retrain); [effects|].
    destruct GPU_AVAILABLE; [|effects].
    apply appends_unhandled; [|effects].
    apply attempt_raises_no_internal_error, Hno. }
  destruct (Hcount s) as (new & Hnew & Hlen).
  exists new. split; [exact Hnew|]. split; [exact Hlen|].
  assert (Hsame : forall P, appends P run -> Forall P new).
  { intros P HP. destruct (HP s) as (new' & Hnew' & HF).
    rewrite Hnew in Hnew'. apply List.app_inv_head in Hnew'. subst new'. exact HF. }
  split; [apply Hsame, Hsecond|].
  split; [intros Hgpu; apply Hsame, Hcpu, Hgpu|].
  intros Hno. apply Hsame, Hrt, Hno.
Qed.

(** Witness of [full_run_falls_back_at_most_once]: training fails on the
    GPU with an InternalError; the run pauses once and returns. *)
Lemma full_run_falls_back_at_most_once_witness :
  fst (full_run_from_dataset true "gpu:0" Examples.weights_file
      Examples.to_gray Examples.to_binary Examples.no_amplification
      Examples.rnd Examples.gpu_broken Examples.evaluation_result
      Examples.prediction_result (CNNModelConfig.default false)
      Examples.panels None false Examples.weights_file false
      (Examples.fresh [] ∅))
  = Ok tt /\
  exists new,
    trace (snd (full_run_from_dataset true "gpu:0" Examples.weights_file
      Examples.to_gray Examples.to_binary Examples.no_amplification
      Examples.rnd Examples.gpu_broken Examples.evaluation_result
      Examples.prediction_result (CNNModelConfig.default false)
      Examples.panels None false Examples.weights_file false
      (Examples.fresh [] ∅)))
    = [] ++ new /\
    length (List.filter is_sleep new) = 1%nat /\
    Forall (fun e => pause_of_one_second e = true) new.
Proof.
  split; [vm_compute; reflexivity|].
  destruct (full_run_falls_back_at_most_once true "gpu:0" Examples.weights_file
              Examples.to_gray Examples.to_binary Examples.no_amplification
              Examples.rnd Examples.gpu_broken Examples.evaluation_result
              Examples.prediction_result (CNNModelConfig.default false)
              Examples.panels None false Examples.weights_file false
              (Examples.fresh [] ∅))
    as (new & Hnew & Hcount & Hsecond & _).
  exists new. split; [exact Hnew|]. split; [|exact Hsecond].
  cbn [Examples.fresh trace app] in Hnew. rewrite <- Hnew.
  vm_compute. reflexivity.
Defined.

(** ** Build *)

Lemma image_shape_returns (s s' : state) (shp : ImageShape) :
  image_shape s = (Ok shp, s') ->
  data s' <> [] /\
  (forall r, In r (data s') -> shape (img_col r) = [rows shp; cols shp]).
Proof.
  unfold image_shape. intros H.
  step_ok H shapes0 s0 E0. clear E0.
  step_ok H u s1 E1. clear E1.
  step_ok H shapes s2 E2. unfold gets in E2. injection E2 as <- <-.
  step_ok H u2 s3 E3.
  destruct (1 <? length (distinct_shapes (data s1)))%nat eqn:Elen;
    cbn [when] in E3; [discriminate E3|].
  unfold ret in E3. injection E3 as _ <-.
  apply Nat.ltb_ge in Elen.
  step_ok H shape0 s4 E4. unfold lift, index in E4.
  destruct (distinct_shapes_spec (data s1)) as [_ Hin].
  destruct (distinct_shapes (data s1)) as [|x [|y rest]] eqn:Eshapes;
    [discriminate E4| |cbn in Elen; lia].
  cbn in E4. injection E4 as <- <-.
  unfold lift in H. injection H as Hnew <-.
  assert (Hx : x = [rows shp; cols shp]).
  { destruct x as [|a [|b [|c x]]]; cbn in Hnew; try discriminate Hnew.
    injection Hnew as <-. reflexivity. }
  split.
  - intros Hnil.
    assert (Hfirst : In x [x]) by (left; reflexivity).
    apply Hin in Hfirst as (r & Hr & _). rewrite Hnil in Hr. destruct Hr.
  - intros r Hr. rewrite <- Hx.
    assert (Hshape : In (shape (img_col r)) [x]) by (apply Hin; exists r; auto).
    destruct Hshape as [->|[]]. reflexivity.
Qed.

(** X19.  Whenever [build] returns, the model holds the network of the one
    [Sequential] call it has just made; the collection is not empty and
    every image in it has exactly the two axes of the input shape of the
    network (after the squeeze of shape resolution, if one was needed); the
    layer widths and the activation are those of the configuration.  The
    compiled and fitted flags and the cached training part are left as
    they were: a rebuilt network still counts as compiled and fitted. *)
Theorem build_fixes_the_input_shape
        (runtime_error : tf_device -> event -> option exn) (s s' : state) :
  build runtime_error s = (Ok tt, s') ->
  exists net before,
    _model s' = Some net /\
    trace s' = before ++ [KerasSequential net] /\
    data s' <> [] /\
    (forall r, In r (data s') ->
               shape (img_col r) = [rows (input_shape net); cols (input_shape net)]) /\
    hidden_units net = CNNModelConfig.n_nodes_layer2 (model_config s) /\
    hidden_activation net = CNNModelConfig.activation_func_id (model_config s) /\
    output_units net = CNNModelConfig.n_nodes_layer3 (model_config s) /\
    _compiled s' = _compiled s /\ _fitted s' = _fitted s /\
    training_data s' = training_data s.
Proof.
  unfold build. intros H.
  step_ok H shp s1 E1.
  assert (Hc : keeps _compiled image_shape) by effects.
  assert (Hf : keeps _fitted image_shape) by effects.
  assert (Hm : keeps model_config image_shape) by effects.
  assert (Ht : keeps training_data image_shape) by effects.
  specialize (Hc s). specialize (Hf s). specialize (Hm s). specialize (Ht s).
  rewrite E1 in Hc, Hf, Hm, Ht. cbn [snd] in Hc, Hf, Hm, Ht.
  destruct (image_shape_returns s s1 shp E1) as [Hne Hall]. clear E1.
  step_ok H cfg s2 E2. unfold gets in E2. injection E2 as <- <-.
  cbv zeta in H.
  step_ok H u s3 E3. unfold call in E3.
  destruct (runtime_error _ _); [discriminate E3|]. injection E3 as _ <-.
  unfold modify in H. injection H as <-.
  eexists. exists (trace s1).
  destruct s1. cbn in *. subst.
  repeat split; try reflexivity; assumption.
Qed.

(** Witness of [build_fixes_the_input_shape]: images of shapes (30,30,1)
    and (30,30) give a network for 30 by 30 images. *)
Lemma build_fixes_the_input_shape_witness :
  exists s' net,
    build Examples.healthy (Examples.fresh Examples.mixed ∅) = (Ok tt, s') /\
    _model s' = Some net /\
    input_shape net = {| rows := 30; cols := 30 |} /\
    (forall r, In r (data s') -> shape (img_col r) = [30; 30]%nat).
Proof.
  destruct (build Examples.healthy (Examples.fresh Examples.mixed ∅))
    as [[[]|e] s'] eqn:E; [|vm_compute in E; discriminate E].
  destruct (build_fixes_the_input_shape Examples.healthy _ s' E)
    as (net & before & Hnet & _ & _ & Hall & _).
  exists s', net. split; [reflexivity|]. split; [exact Hnet|].
  assert (Hshape : input_shape net = {| rows := 30; cols := 30 |}).
  { vm_compute in E. injection E as <-. cbn [_model] in Hnet.
    injection Hnet as <-. reflexivity. }
  split; [exact Hshape|].
  intros r Hr. rewrite (Hall r Hr), Hshape. reflexivity.
Defined.

(** ** Plot *)

Lemma emit_returns (e : event) (s s' : state) (u : unit) :
  emit e s = (Ok u, s') ->
  training_data s' = training_data s /\ class_names s' = class_names s /\
  trace s' = trace s ++ [e].
Proof.
  unfold emit, modify. intros H. injection H as _ <-. destruct s. repeat split.
Qed.

Lemma call_returns (runtime_error : tf_device -> event -> option exn)
      (e : event) (s s' : state) (u : unit) :
  call runtime_error e s = (Ok u, s') ->
  training_data s' = training_data s /\ class_names s' = class_names s /\
  trace s' = trace s ++ [e].
Proof.
  unfold call. destruct (runtime_error _ _); [discriminate|].
  intros H. injection H as _ <-. destruct s. repeat split.
Qed.

Lemma train_labels_returns (rnd : nat -> nat) (s s' : state) (labels : list Q) :
  train_labels rnd s = (Ok labels, s') ->
  labels = map quality_col (training_data s').
Proof.
  unfold train_labels. rewrite bind_run.
  destruct (_ensure_train_imgdata rnd s) as [[[]|e] s1]; [|discriminate].
  run_monad. intros H. injection H as <- <-. reflexivity.
Qed.

Ltac lift_ok H a Ea :=
  let s1 := fresh "s" in
  let E := fresh "E" in
  step_ok H a s1 E; unfold lift in E; injection E as Ea <-.

Ltac trace_step H lemma s2 Htd Hcn Htr :=
  let u := fresh "u" in
  let E := fresh "E" in
  step_ok H u s2 E; apply lemma in E; destruct E as (Htd & Hcn & Htr).

Ltac cached H rnd st which :=
  let Hst := fresh in
  assert (Hst : training_data st <> []) by congruence;
  rewrite bind_run in H;
  rewrite (which _ _ (train_images_with_training_data rnd st Hst)) in H;
  clear Hst.

(** X20.  [plot] on an empty prediction array raises IndexError before
    anything else happens.  Whenever [plot] returns, the first prediction
    exists and is not empty, a training part exists, and the last six
    library calls are, in order: the figure, the left panel, [plot_image]
    of sample 0 with the first prediction, the right panel,
    [plot_value_array] of sample 0 with the first prediction, and the
    show; the labels and images handed to the two plot helpers are the
    scores and the stacked images of the training part. *)
Theorem plot_shows_the_first_training_row (rnd : nat -> nat)
        (runtime_error : tf_device -> event -> option exn)
        (predicted : TensorFlowPredictions) (s : state) :
  (predicted = [] ->
   plot rnd runtime_error predicted s = (Raise (IndexError "index out of range"), s)) /\
  (forall s', plot rnd runtime_error predicted s = (Ok tt, s') ->
     exists before p rest images,
       predicted = p :: rest /\ p <> [] /\
       training_data s' <> [] /\
       stack (map img_col (training_data s')) = Ok images /\
       let labels := map quality_col (training_data s') in
       trace s' = before ++
         [Plt "figure(figsize=(6, 3))"; Plt "subplot(1, 2, 1)";
          PlotImage 0 p labels images (class_names s');
          Plt "subplot(1, 2, 2)"; PlotValueArray 0 p labels; Plt "show()"]).
Proof.
  split.
  - intros ->. reflexivity.
  - unfold plot. intros s' H.
    lift_ok H p0 Ep.
    trace_step H emit_returns s1 Htd1 Hcn1 Htr1.
    lift_ok H best Ebest.
    trace_step H emit_returns s2 Htd2 Hcn2 Htr2.
    change (test_labels rnd) with (train_labels rnd) in H.
    change (test_images rnd) with (train_images rnd) in H.
    step_ok H labels s3 E3. apply train_labels_returns in E3.
    lift_ok H l0 El0.
    assert (Hne : training_data s3 <> []).
    { intros Hnil. rewrite E3, Hnil in El0. discriminate El0. }
    trace_step H emit_returns s4 Htd4 Hcn4 Htr4.
    cbv zeta in H.
    trace_step H call_returns s5 Htd5 Hcn5 Htr5.
    trace_step H call_returns s6 Htd6 Hcn6 Htr6.
    lift_ok H p Ep'.
    cached H rnd s6 proj2. cached H rnd s6 proj1.
    destruct (stack (map img_col (training_data s6))) as [images|e] eqn:Estack;
      [|discriminate H].
    step_ok H cnames s7 E7. unfold gets in E7. injection E7 as <- <-.
    trace_step H call_returns s8 Htd8 Hcn8 Htr8.
    trace_step H call_returns s9 Htd9 Hcn9 Htr9.
    lift_ok H p' Ep''.
    cached H rnd s9 proj2.
    trace_step H call_returns s10 Htd10 Hcn10 Htr10.
    apply call_returns in H. destruct H as (Htd11 & Hcn11 & Htr11).
    destruct predicted as [|q rest]; [discriminate Ep|].
    cbn in Ep, Ep', Ep''. injection Ep as <-. injection Ep' as <-. injection Ep'' as <-.
    exists (trace s4), q, rest, images.
    split; [reflexivity|]. split; [intros ->; discriminate Ebest|].
    split; [congruence|]. split; [congruence|]. cbv zeta.
    rewrite Htr11, Htr10, Htr9, Htr8, Htr6, Htr5.
    rewrite Htd11, Htd10, Htd9, Htd8, Htd6, Hcn11, Hcn10, Hcn9, Hcn8.
    rewrite <- !app_assoc. reflexivity.
Qed.

(** Witness of [plot_shows_the_first_training_row]: one prediction over
    five images of shape (2,2). *)
Lemma plot_shows_the_first_training_row_witness :
  exists s' before p rest images,
    plot Examples.rnd Examples.healthy (Examples.prediction_result [])
      (Examples.fresh Examples.five ∅) = (Ok tt, s') /\
    Examples.prediction_result [] = p :: rest /\
    trace s' = before ++
      [Plt "figure(figsize=(6, 3))"; Plt "subplot(1, 2, 1)";
       PlotImage 0 p (map quality_col (training_data s')) images (class_names s');
       Plt "subplot(1, 2, 2)";
       PlotValueArray 0 p (map quality_col (training_data s')); Plt "show()"].
Proof.
  destruct (plot Examples.rnd Examples.healthy (Examples.prediction_result [])
              (Examples.fresh Examples.five ∅)) as [[[]|e] s'] eqn:E;
    [|vm_compute in E; discriminate E].
  destruct (plot_shows_the_first_training_row Examples.rnd Examples.healthy
              (Examples.prediction_result []) (Examples.fresh Examples.five ∅))
    as [_ Hplot].
  destruct (Hplot s' E) as (before & p & rest & images & Hp & _ & _ & _ & Htrace).
  cbv zeta in Htrace.
  exists s', before, p, rest, images.
  split; [reflexivity|]. split; [exact Hp|exact Htrace].
Defined.

(** ** Runs in a runtime that does not fail *)






Section Healthy.

Context (rnd : nat -> nat) (runtime_error : tf_device -> event -> option exn).
Context (keras_evaluate : list event -> Q * Q).
Context (keras_predict : list event -> TensorFlowPredictions).
Context (t0 : list event) (fs : gset string) (df : list Row) (rr cc : nat).

Hypothesis healthy_runtime : forall d e, runtime_error d e = None.
Hypothesis predicted :
  forall history, exists p rest, keras_predict history = p :: rest /\ p <> [].
Hypothesis some_rows : df <> [].
Hypothesis one_shape : forall r, In r df -> shape (img_col r) = [rr; cc].
Hypothesis unique_ids : List.NoDup (map id_col df).























End Healthy.





